(** * exportt5.py: export of the flan-t5 checkpoints to ONNX

    A shallow embedding of [exportt5.py].  The script prints the version of
    the transformers library and then, for every identifier of a fixed list,
    derives an output directory from the identifier, loads and converts the
    model, loads its tokenizer and saves both into the directory.

    Strings are [string] (bytes).  Python strings are sequences of code
    points, but the only character the script inspects is '/', an ASCII
    character that never occurs inside a multi-byte UTF-8 sequence, so
    splitting bytes and splitting code points cut at the same places. *)

From Stdlib Require Import String Ascii List Bool Arith Lia.
Import ListNotations.
Open Scope string_scope.
Open Scope list_scope.

(** ** Python values the script relies on *)

(** Exceptions: the [IndexError] of an out-of-range list index, and whatever
    an external library call raises. *)
Inductive exn : Type :=
| IndexError
| LibraryError (msg : string).

Inductive result (A : Type) : Type :=
| Ok (a : A)
| Raise (e : exn).
Arguments Ok {A} a.
Arguments Raise {A} e.

(** [s.split(sep)] for a separator of one character: the pieces between the
    occurrences of [sep], empty pieces kept, never the empty list. *)
Fixpoint split (sep : ascii) (s : string) : list string :=
  match s with
  | EmptyString => [EmptyString]
  | String c rest =>
      if Ascii.eqb c sep then EmptyString :: split sep rest
      else match split sep rest with
           | [] => [String c EmptyString]
           | seg :: segs => String c seg :: segs
           end
  end.

(** [l[i]] for a non-negative index: [IndexError] when out of range. *)
Definition index {A : Type} (l : list A) (i : nat) : result A :=
  match nth_error l i with
  | Some a => Ok a
  | None => Raise IndexError
  end.

(** [sep.join(l)] *)
Fixpoint join (sep : string) (l : list string) : string :=
  match l with
  | [] => EmptyString
  | [x] => x
  | x :: rest => x ++ sep ++ join sep rest
  end.

(** [c in s] and [s.count(c)] for a character [c]. *)
Fixpoint contains (c : ascii) (s : string) : bool :=
  match s with
  | EmptyString => false
  | String d rest => Ascii.eqb d c || contains c rest
  end.

Fixpoint count (c : ascii) (s : string) : nat :=
  match s with
  | EmptyString => 0
  | String d rest => (if Ascii.eqb d c then 1 else 0) + count c rest
  end.

(** ** pathlib: [Path] on a POSIX system

    [Path(s)] parses [s] into a root and the list of its components;
    empty components and "." components are dropped (so doubled and trailing
    slashes disappear), ".." is kept.  Two paths are equal when root and
    components are. *)
Record PosixPath : Type := mkPath { root : string; tail : list string }.

(** [posixpath.splitroot]: no root, "/" or (for exactly two leading
    slashes) "//", and the rest of the string. *)
Definition splitroot (p : string) : string * string :=
  match p with
  | String "/" (String "/" (String "/" r)) => ("/", String "/" (String "/" r))
  | String "/" (String "/" r) => ("//", r)
  | String "/" r => ("/", r)
  | _ => ("", p)
  end.

Definition is_component (x : string) : bool :=
  negb (String.eqb x "") && negb (String.eqb x ".").

Definition Path (s : string) : PosixPath :=
  let (r, rel) := splitroot s in
  mkPath r (filter is_component (split "/" rel)).

(** [str(p)] *)
Definition path_str (p : PosixPath) : string :=
  match root p, tail p with
  | EmptyString, [] => "."
  | r, t => r ++ join "/" t
  end.

(** ** The script's pure part: lines 11-17 and 20-21 *)

Definition models : list string :=
  [ "google/flan-t5-xl";
    "google/flan-t5-xxl" ].


(** Line 20: [model_name = model_id.split("/")[1]] *)
Definition model_name (model_id : string) : result string :=
  index (split "/" model_id) 1.

(** Lines 20-21: [onnx_path = Path("onnx/" + model_name)] *)
Definition onnx_path (model_id : string) : result PosixPath :=
  match model_name model_id with
  | Ok name => Ok (Path ("onnx/" ++ name))
  | Raise e => Raise e
  end.

(** The fixed base directory of the output tree. *)
Definition base_dir : PosixPath := Path "onnx/".

(** *** The spec's wording of the name, for comparison with [model_name]. *)

(** The substring after the last [sep] of [s] (all of [s] when it has none). *)
Fixpoint after_last (sep : ascii) (s : string) : string :=
  match s with
  | EmptyString => EmptyString
  | String c rest =>
      if contains sep rest then after_last sep rest
      else if Ascii.eqb c sep then rest
      else String c rest
  end.

(** The text before the first [sep] of [s] (all of [s] when it has none). *)
Fixpoint before_first (sep : ascii) (s : string) : string :=
  match s with
  | EmptyString => EmptyString
  | String c rest =>
      if Ascii.eqb c sep then EmptyString else String c (before_first sep rest)
  end.

(** The text after the first [sep] of [s] (empty when it has none). *)
Fixpoint after_first (sep : ascii) (s : string) : string :=
  match s with
  | EmptyString => EmptyString
  | String c rest => if Ascii.eqb c sep then rest else after_first sep rest
  end.

(** ** The external libraries

    [transformers] and [optimum] are taken as parameters: a world they act on
    (model hub, caches, file system), the handles they return, and for each
    call of the script a function from the world to the new world and the
    value returned or the exception raised. *)
Record Library (World Model Tokenizer : Type) : Type := mkLibrary {
  (** [t.__version__] *)
  transformers_version : string;
  (** [ORTModelForSeq2SeqLM.from_pretrained(model_id, from_transformers=b)] *)
  ORTModelForSeq2SeqLM_from_pretrained :
    string -> bool -> World -> World * result Model;
  (** [AutoTokenizer.from_pretrained(model_id)] *)
  AutoTokenizer_from_pretrained :
    string -> World -> World * result Tokenizer;
  (** [model.save_pretrained(path)] *)
  model_save_pretrained :
    Model -> PosixPath -> World -> World * result unit;
  (** [tokenizer.save_pretrained(path)] *)
  tokenizer_save_pretrained :
    Tokenizer -> PosixPath -> World -> World * result unit
}.
Arguments mkLibrary {World Model Tokenizer}.
Arguments transformers_version {World Model Tokenizer}.
Arguments ORTModelForSeq2SeqLM_from_pretrained {World Model Tokenizer}.
Arguments AutoTokenizer_from_pretrained {World Model Tokenizer}.
Arguments model_save_pretrained {World Model Tokenizer}.
Arguments tokenizer_save_pretrained {World Model Tokenizer}.

(** The calls the script makes, as a call-order instrumentation of the
    libraries would record them: a call is recorded when it is made, whether
    it returns or raises. *)
Inductive call (Model Tokenizer : Type) : Type :=
| CallPrint (line : string)
| CallLoadModel (model_id : string) (from_transformers : bool)
| CallLoadTokenizer (model_id : string)
| CallSaveModel (model : Model) (dir : PosixPath)
| CallSaveTokenizer (tokenizer : Tokenizer) (dir : PosixPath).
Arguments CallPrint {Model Tokenizer}.
Arguments CallLoadModel {Model Tokenizer}.
Arguments CallLoadTokenizer {Model Tokenizer}.
Arguments CallSaveModel {Model Tokenizer}.
Arguments CallSaveTokenizer {Model Tokenizer}.

(** A call without the handles it passes: what is called, on which
    identifier or directory. *)
Inductive op : Type :=
| OpPrint (line : string)
| OpLoadModel (model_id : string) (from_transformers : bool)
| OpLoadTokenizer (model_id : string)
| OpSaveModel (dir : PosixPath)
| OpSaveTokenizer (dir : PosixPath).

Definition shape {Model Tokenizer : Type} (c : call Model Tokenizer) : op :=
  match c with
  | CallPrint line => OpPrint line
  | CallLoadModel model_id b => OpLoadModel model_id b
  | CallLoadTokenizer model_id => OpLoadTokenizer model_id
  | CallSaveModel _ dir => OpSaveModel dir
  | CallSaveTokenizer _ dir => OpSaveTokenizer dir
  end.

(** The directories of the save calls of a log, in call order. *)
Definition saved_dir (o : op) : list PosixPath :=
  match o with
  | OpSaveModel dir | OpSaveTokenizer dir => [dir]
  | _ => []
  end.

Definition saved_dirs (ops : list op) : list PosixPath :=
  flat_map saved_dir ops.

Definition is_save (o : op) : bool :=
  match o with
  | OpSaveModel _ | OpSaveTokenizer _ => true
  | _ => false
  end.

Fixpoint strings_eqb (l1 l2 : list string) : bool :=
  match l1, l2 with
  | [], [] => true
  | x :: r1, y :: r2 => String.eqb x y && strings_eqb r1 r2
  | _, _ => false
  end.

(** [p == q] on paths. *)
Definition path_eqb (p q : PosixPath) : bool :=
  String.eqb (root p) (root q) && strings_eqb (tail p) (tail q).



Definition prefix {A : Type} (l1 l2 : list A) : Prop :=
  exists k, l2 = l1 ++ k.

(** ** The script as a program over the world

    The state is the world together with the call log.  A computation may
    raise; what it did to the state before raising stays done, as nothing in
    the script catches an exception. *)
Section Script.
Context {World Model Tokenizer : Type}.
Variable lib : Library World Model Tokenizer.

Record state : Type := mkState {
  world : World;
  log : list (call Model Tokenizer)
}.

Definition M (A : Type) : Type := state -> state * result A.

Definition ret {A : Type} (a : A) : M A := fun s => (s, Ok a).

Definition bind {A B : Type} (m : M A) (k : A -> M B) : M B :=
  fun s =>
    match m s with
    | (s', Ok a) => k a s'
    | (s', Raise e) => (s', Raise e)
    end.

(** A pure step that may raise. *)
Definition lift {A : Type} (r : result A) : M A := fun s => (s, r).

(** A call of an external function: recorded, then run on the world. *)
Definition extern {A : Type} (c : call Model Tokenizer)
    (f : World -> World * result A) : M A :=
  fun s =>
    let (w, r) := f (world s) in
    (mkState w (log s ++ [c]), r).

Notation "x <- m ;; k" := (bind m (fun x => k))
  (at level 100, m at next level, right associativity).

(** Line 7: [print("transformers version:", t.__version__)] *)
Definition print_version : M unit :=
  extern (CallPrint ("transformers version: " ++ transformers_version lib))
         (fun w => (w, Ok tt)).

(** Lines 20-29: the body of the loop. *)
Definition export_model (model_id : string) : M unit :=
  path <- lift (onnx_path model_id) ;;
  model <- extern (CallLoadModel model_id true)
             (ORTModelForSeq2SeqLM_from_pretrained lib model_id true) ;;
  tokenizer <- extern (CallLoadTokenizer model_id)
             (AutoTokenizer_from_pretrained lib model_id) ;;
  _ <- extern (CallSaveModel model path)
             (model_save_pretrained lib model path) ;;
  extern (CallSaveTokenizer tokenizer path)
             (tokenizer_save_pretrained lib tokenizer path).

(** Line 19: [for model_id in models] *)
Fixpoint for_models (l : list string) : M unit :=
  match l with
  | [] => ret tt
  | model_id :: rest => _ <- export_model model_id ;; for_models rest
  end.

(** The whole script. *)
Definition script : M unit :=
  _ <- print_version ;; for_models models.
End Script.

Arguments state : clear implicits.
Arguments mkState {World Model Tokenizer}.
Arguments M : clear implicits.

(** The calls of one iteration, in order, and of a run over a list; the run
    stops at the first identifier whose directory cannot be derived. *)
Definition iteration_ops (model_id : string) (dir : PosixPath) : list op :=
  [ OpLoadModel model_id true;
    OpLoadTokenizer model_id;
    OpSaveModel dir;
    OpSaveTokenizer dir ].
Arguments iteration_ops : simpl never.

Fixpoint planned_ops (l : list string) : list op :=
  match l with
  | [] => []
  | model_id :: rest =>
      match onnx_path model_id with
      | Ok dir => iteration_ops model_id dir ++ planned_ops rest
      | Raise _ => []
      end
  end.

(** The calls of a block are those of one iteration on [model_id]: loads of
    that identifier, saves into the directory derived from it. *)
Definition calls_agree {Model Tokenizer : Type} (model_id : string)
    (block : list (call Model Tokenizer)) : Prop :=
  forall c, In c block ->
    match c with
    | CallPrint _ => False
    | CallLoadModel i _ | CallLoadTokenizer i => i = model_id
    | CallSaveModel _ d | CallSaveTokenizer _ d => onnx_path model_id = Ok d
    end.

(** ** Deterministic, overwriting saves

    What the claim about two runs assumes of the libraries, over two
    observations of the world: the model files and the tokenizer files a
    directory holds.  A successful save replaces the files of its kind in its
    directory by what the handle stores and touches nothing else; the loads
    touch no directory; and the files stored for an identifier do not depend
    on the world the identifier was loaded in. *)
Record deterministic_overwriting {World Model Tokenizer MF TF : Type}
    (lib : Library World Model Tokenizer)
    (stored_model : Model -> MF) (stored_tokenizer : Tokenizer -> TF)
    (model_files : World -> PosixPath -> MF)
    (tokenizer_files : World -> PosixPath -> TF) : Prop := {
  load_model_frame : forall model_id b w p,
    let w' := fst (ORTModelForSeq2SeqLM_from_pretrained lib model_id b w) in
    model_files w' p = model_files w p /\
    tokenizer_files w' p = tokenizer_files w p;
  load_tokenizer_frame : forall model_id w p,
    let w' := fst (AutoTokenizer_from_pretrained lib model_id w) in
    model_files w' p = model_files w p /\
    tokenizer_files w' p = tokenizer_files w p;
  load_model_same : forall model_id b w1 w2 m1 m2,
    snd (ORTModelForSeq2SeqLM_from_pretrained lib model_id b w1) = Ok m1 ->
    snd (ORTModelForSeq2SeqLM_from_pretrained lib model_id b w2) = Ok m2 ->
    stored_model m1 = stored_model m2;
  load_tokenizer_same : forall model_id w1 w2 t1 t2,
    snd (AutoTokenizer_from_pretrained lib model_id w1) = Ok t1 ->
    snd (AutoTokenizer_from_pretrained lib model_id w2) = Ok t2 ->
    stored_tokenizer t1 = stored_tokenizer t2;
  save_model_overwrites : forall m dir w w',
    model_save_pretrained lib m dir w = (w', Ok tt) ->
    forall p,
      model_files w' p
        = (if path_eqb dir p then stored_model m else model_files w p) /\
      tokenizer_files w' p = tokenizer_files w p;
  save_tokenizer_overwrites : forall t dir w w',
    tokenizer_save_pretrained lib t dir w = (w', Ok tt) ->
    forall p,
      tokenizer_files w' p
        = (if path_eqb dir p then stored_tokenizer t
           else tokenizer_files w p) /\
      model_files w' p = model_files w p
}.

(** ** A small instance of the libraries

    A hub that knows the two flan-t5 checkpoints, one checkpoint that has no
    tokenizer and one whose name is empty; handles are the names of what
    was loaded; the world is the list of the files written, newest first. *)
Inductive artifact : Type :=
| ModelFiles (content : string)
| TokenizerFiles (content : string).

Definition disk : Type := list (PosixPath * artifact).

Definition hub_models : list string :=
  [ "google/flan-t5-xl"; "google/flan-t5-xxl"; "acme/no-tokenizer"; "ns/" ].

Definition hub_tokenizers : list string :=
  [ "google/flan-t5-xl"; "google/flan-t5-xxl"; "ns/" ].

Definition hub_load (known : list string) (kind model_id : string)
    (w : disk) : disk * result string :=
  (w, if existsb (String.eqb model_id) known
      then Ok (kind ++ ":" ++ model_id)%string
      else Raise (LibraryError (kind ++ " not found")%string)).

Definition toy_library : Library disk string string :=
  mkLibrary "4.26.0"
    (fun model_id _ => hub_load hub_models "onnx" model_id)
    (hub_load hub_tokenizers "tokenizer")
    (fun m dir w => ((dir, ModelFiles m) :: w, Ok tt))
    (fun t dir w => ((dir, TokenizerFiles t) :: w, Ok tt)).

Fixpoint disk_model_files (w : disk) (p : PosixPath) : option string :=
  match w with
  | [] => None
  | (dir, ModelFiles c) :: rest =>
      if path_eqb dir p then Some c else disk_model_files rest p
  | _ :: rest => disk_model_files rest p
  end.

Fixpoint disk_tokenizer_files (w : disk) (p : PosixPath) : option string :=
  match w with
  | [] => None
  | (dir, TokenizerFiles c) :: rest =>
      if path_eqb dir p then Some c else disk_tokenizer_files rest p
  | _ :: rest => disk_tokenizer_files rest p
  end.

Definition start : state disk string string := mkState [] [].

(** Two variants of the instance whose saves fail: a file system that is
    read-only, where the model cannot be saved, and a disk that is full
    once the model is written, where the tokenizer cannot be saved. *)
Definition read_only_library : Library disk string string :=
  mkLibrary "4.26.0"
    (fun model_id _ => hub_load hub_models "onnx" model_id)
    (hub_load hub_tokenizers "tokenizer")
    (fun _ _ w => (w, Raise (LibraryError "read-only file system")))
    (fun t dir w => ((dir, TokenizerFiles t) :: w, Ok tt)).

Definition disk_full_library : Library disk string string :=
  mkLibrary "4.26.0"
    (fun model_id _ => hub_load hub_models "onnx" model_id)
    (hub_load hub_tokenizers "tokenizer")
    (fun m dir w => ((dir, ModelFiles m) :: w, Ok tt))
    (fun _ _ w => (w, Raise (LibraryError "no space left on device"))).

(** ** Succeeding calls, and the calls of one iteration *)

(** The library calls the loop makes on the identifiers of [l] all
    succeed, in every world. *)
Definition calls_succeed {World Model Tokenizer : Type}
    (lib : Library World Model Tokenizer) (l : list string) : Prop :=
  (forall model_id w, In model_id l ->
     exists w' m,
       ORTModelForSeq2SeqLM_from_pretrained lib model_id true w
       = (w', Ok m)) /\
  (forall model_id w, In model_id l ->
     exists w' t,
       AutoTokenizer_from_pretrained lib model_id w = (w', Ok t)) /\
  (forall m dir w,
     exists w', model_save_pretrained lib m dir w = (w', Ok tt)) /\
  (forall t dir w,
     exists w', tokenizer_save_pretrained lib t dir w = (w', Ok tt)).

(** The calls of a completed iteration on [model_id]: the four calls of
    lines 24-29, both loads on [model_id] and both saves into the directory
    derived from [model_id]. *)
Definition complete_block {Model Tokenizer : Type} (model_id : string)
    (block : list (call Model Tokenizer)) : Prop :=
  exists dir,
    onnx_path model_id = Ok dir /\
    map shape block
    = [ OpLoadModel model_id true; OpLoadTokenizer model_id;
        OpSaveModel dir; OpSaveTokenizer dir ].

(** The calls of an iteration on [model_id] that raised: none when the
    directory could not be derived, else a non-empty initial segment of
    those four calls. *)
Definition partial_block {Model Tokenizer : Type} (model_id : string)
    (block : list (call Model Tokenizer)) : Prop :=
  (block = [] /\ exists e, onnx_path model_id = Raise e) \/
  (exists dir,
     onnx_path model_id = Ok dir /\
     block <> [] /\
     prefix (map shape block)
       [ OpLoadModel model_id true; OpLoadTokenizer model_id;
         OpSaveModel dir; OpSaveTokenizer dir ]).

(** How often a run loads the model of an identifier, loads its
    tokenizer, and saves a model or a tokenizer into a directory. *)
Definition model_loads (model_id : string) (ops : list op) : nat :=
  length (filter (fun o => match o with
                           | OpLoadModel i _ => String.eqb i model_id
                           | _ => false
                           end) ops).

Definition tokenizer_loads (model_id : string) (ops : list op) : nat :=
  length (filter (fun o => match o with
                           | OpLoadTokenizer i => String.eqb i model_id
                           | _ => false
                           end) ops).

Definition model_saves (dir : PosixPath) (ops : list op) : nat :=
  length (filter (fun o => match o with
                           | OpSaveModel d => path_eqb d dir
                           | _ => false
                           end) ops).

Definition tokenizer_saves (dir : PosixPath) (ops : list op) : nat :=
  length (filter (fun o => match o with
                           | OpSaveTokenizer d => path_eqb d dir
                           | _ => false
                           end) ops).

(** The occurrences of an identifier in a list, and the identifiers of a
    list whose derived directory is [dir]. *)
Definition occurrences (model_id : string) (l : list string) : nat :=
  length (filter (String.eqb model_id) l).

Definition derive_dir (dir : PosixPath) (l : list string) : nat :=
  length (filter (fun model_id => match onnx_path model_id with
                                  | Ok d => path_eqb d dir
                                  | Raise _ => false
                                  end) l).

(** ** Saves alone deterministic and overwriting

    The two save fields of [deterministic_overwriting], without what it
    asks of the loads. *)
Definition saves_overwrite {World Model Tokenizer MF TF : Type}
    (lib : Library World Model Tokenizer)
    (stored_model : Model -> MF) (stored_tokenizer : Tokenizer -> TF)
    (model_files : World -> PosixPath -> MF)
    (tokenizer_files : World -> PosixPath -> TF) : Prop :=
  (forall m dir w w',
     model_save_pretrained lib m dir w = (w', Ok tt) ->
     forall p,
       model_files w' p
         = (if path_eqb dir p then stored_model m else model_files w p) /\
       tokenizer_files w' p = tokenizer_files w p) /\
  (forall t dir w w',
     tokenizer_save_pretrained lib t dir w = (w', Ok tt) ->
     forall p,
       tokenizer_files w' p
         = (if path_eqb dir p then stored_tokenizer t
            else tokenizer_files w p) /\
       model_files w' p = model_files w p).

(** An instance whose hub moves on: a checkpoint is served in the revision
    the hub is at, and every model load advances the revision.  Handles
    are revisions; the world is the revision of the hub and the files
    written, newest first, each a model ([true]) or a tokenizer ([false])
    of a revision.  Saves are as in [toy_library]. *)
Definition revisions : Type := nat * list (PosixPath * (bool * nat)).

Definition drifting_library : Library revisions nat nat :=
  mkLibrary "4.26.0"
    (fun _ _ w => ((S (fst w), snd w), Ok (fst w)))
    (fun _ w => (w, Ok (fst w)))
    (fun m dir w => ((fst w, (dir, (true, m)) :: snd w), Ok tt))
    (fun t dir w => ((fst w, (dir, (false, t)) :: snd w), Ok tt)).

Fixpoint written (kind : bool) (files : list (PosixPath * (bool * nat)))
    (p : PosixPath) : option nat :=
  match files with
  | [] => None
  | (dir, (k, revision)) :: rest =>
      if Bool.eqb k kind && path_eqb dir p then Some revision
      else written kind rest p
  end.

Definition revision_model_files (w : revisions) (p : PosixPath)
    : option nat := written true (snd w) p.

Definition revision_tokenizer_files (w : revisions) (p : PosixPath)
    : option nat := written false (snd w) p.

Definition hub_at_0 : state revisions nat nat := mkState (0, []) [].

(** * Properties *)

(** ** Splitting *)

Example split_xl : split "/" "google/flan-t5-xl" = ["google"; "flan-t5-xl"].
Proof. reflexivity. Qed.

Example split_empty : split "/" "" = [""].
Proof. reflexivity. Qed.

Example split_trailing : split "/" "ns/" = ["ns"; ""].
Proof. reflexivity. Qed.

Example split_three : split "/" "a/b/c" = ["a"; "b"; "c"].
Proof. reflexivity. Qed.

Example path_xl : path_str (Path "onnx/flan-t5-xl") = "onnx/flan-t5-xl".
Proof. reflexivity. Qed.

Example path_trailing_slash : Path "onnx/" = mkPath "" ["onnx"].
Proof. reflexivity. Qed.

Example path_dot : path_str (Path "onnx/.") = "onnx".
Proof. reflexivity. Qed.

Example path_absolute : path_str (Path "///a//b/./c/") = "/a/b/c".
Proof. reflexivity. Qed.

Example path_two_slashes : path_str (Path "//a/../b") = "//a/../b".
Proof. reflexivity. Qed.

Example path_empty : path_str (Path "") = ".".
Proof. reflexivity. Qed.

Lemma split_not_nil (sep : ascii) (s : string) : split sep s <> [].
Proof.
  destruct s as [|c rest]; simpl; [discriminate|].
  destruct (Ascii.eqb c sep); [discriminate|].
  destruct (split sep rest); discriminate.
Qed.

Lemma split_no_sep (sep : ascii) (s : string) :
  contains sep s = false -> split sep s = [s].
Proof.
  induction s as [|c rest IH]; simpl; intros H; [reflexivity|].
  apply orb_false_iff in H as [Hc Hrest].
  rewrite Hc, (IH Hrest). reflexivity.
Qed.

Lemma split_app_sep (sep : ascii) (a b : string) :
  contains sep a = false ->
  split sep (a ++ String sep b) = a :: split sep b.
Proof.
  induction a as [|c rest IH]; simpl; intros H.
  - rewrite Ascii.eqb_refl. reflexivity.
  - apply orb_false_iff in H as [Hc Hrest].
    rewrite Hc, (IH Hrest). reflexivity.
Qed.

Lemma before_first_no_sep (sep : ascii) (s : string) :
  contains sep s = false -> before_first sep s = s.
Proof.
  induction s as [|c rest IH]; simpl; intros H; [reflexivity|].
  apply orb_false_iff in H as [Hc Hrest].
  rewrite Hc, (IH Hrest). reflexivity.
Qed.

Lemma contains_before_first (sep : ascii) (s : string) :
  contains sep (before_first sep s) = false.
Proof.
  induction s as [|c rest IH]; simpl; [reflexivity|].
  destruct (Ascii.eqb c sep) eqn:Hc; simpl; [reflexivity|].
  rewrite Hc, IH. reflexivity.
Qed.

(** A string that contains [sep] is the text before its first [sep], the
    separator, and the text after it. *)
Lemma cut_at_first (sep : ascii) (s : string) :
  contains sep s = true ->
  s = (before_first sep s ++ String sep (after_first sep s))%string.
Proof.
  induction s as [|c rest IH]; simpl; intros H; [discriminate|].
  destruct (Ascii.eqb c sep) eqn:Hc; simpl.
  - apply Ascii.eqb_eq in Hc. subst c. reflexivity.
  - simpl in H. rewrite <- (IH H). reflexivity.
Qed.

Lemma split_cut (sep : ascii) (s : string) :
  contains sep s = true ->
  split sep s = before_first sep s :: split sep (after_first sep s).
Proof.
  intros H. rewrite (cut_at_first sep s H) at 1.
  apply split_app_sep, contains_before_first.
Qed.

Lemma hd_split (sep : ascii) (s : string) :
  exists segs, split sep s = before_first sep s :: segs.
Proof.
  destruct (contains sep s) eqn:H.
  - eexists. apply split_cut, H.
  - exists []. rewrite before_first_no_sep by exact H.
    apply split_no_sep, H.
Qed.

Lemma contains_app (sep : ascii) (a b : string) :
  contains sep (a ++ b) = contains sep a || contains sep b.
Proof.
  induction a as [|c rest IH]; simpl; [reflexivity|].
  rewrite IH, orb_assoc. reflexivity.
Qed.

Lemma after_last_app_sep (sep : ascii) (a b : string) :
  contains sep b = false -> after_last sep (a ++ String sep b) = b.
Proof.
  intros Hb. induction a as [|c rest IH]; simpl.
  - rewrite Hb, Ascii.eqb_refl. reflexivity.
  - rewrite contains_app. simpl. rewrite Ascii.eqb_refl, orb_true_r.
    exact IH.
Qed.

Lemma count_zero_contains (sep : ascii) (s : string) :
  count sep s = 0 <-> contains sep s = false.
Proof.
  induction s as [|c rest IH]; simpl; [tauto|].
  destruct (Ascii.eqb c sep); simpl; [split; discriminate|exact IH].
Qed.

Lemma count_after_first (sep : ascii) (s : string) :
  contains sep s = true -> count sep s = S (count sep (after_first sep s)).
Proof.
  induction s as [|c rest IH]; simpl; intros H; [discriminate|].
  destruct (Ascii.eqb c sep); simpl in *; [reflexivity|exact (IH H)].
Qed.

(** ** The derived name and directory *)

Lemma model_name_no_slash (model_id : string) :
  contains "/" model_id = false -> model_name model_id = Raise IndexError.
Proof.
  intros H. unfold model_name. rewrite (split_no_sep _ _ H). reflexivity.
Qed.

Lemma model_name_slash (model_id : string) :
  contains "/" model_id = true ->
  model_name model_id
    = Ok (before_first "/" (after_first "/" model_id)).
Proof.
  intros H. unfold model_name. rewrite (split_cut _ _ H).
  destruct (hd_split "/" (after_first "/" model_id)) as [segs ->].
  reflexivity.
Qed.

Lemma model_name_wellformed (ns name : string) :
  contains "/" ns = false -> contains "/" name = false ->
  model_name (ns ++ "/" ++ name) = Ok name.
Proof.
  intros Hns Hname. unfold model_name. simpl.
  rewrite (split_app_sep _ _ _ Hns), (split_no_sep _ _ Hname). reflexivity.
Qed.

Lemma Path_onnx_sub (name : string) :
  contains "/" name = false -> name <> "" -> name <> "." ->
  Path ("onnx/" ++ name) = mkPath "" ["onnx"; name].
Proof.
  intros Hs He Hd. unfold Path. simpl.
  rewrite (split_no_sep _ _ Hs). simpl.
  unfold is_component.
  apply String.eqb_neq in He, Hd. rewrite He, Hd. reflexivity.
Qed.

Lemma after_last_one_sep (sep : ascii) (s : string) :
  count sep s = 1 -> after_last sep s = before_first sep (after_first sep s).
Proof.
  intros H.
  assert (Hc : contains sep s = true).
  { destruct (contains sep s) eqn:E; [reflexivity|].
    apply count_zero_contains in E. lia. }
  assert (Ha : contains sep (after_first sep s) = false).
  { apply count_zero_contains. rewrite (count_after_first _ _ Hc) in H. lia. }
  rewrite (before_first_no_sep _ _ Ha).
  rewrite (cut_at_first _ _ Hc) at 1.
  apply after_last_app_sep, Ha.
Qed.

(** C1, as the code has it: for every identifier ns/name with exactly one
    '/' and non-empty segments, line 20 derives the name, and line 21 a
    relative path which, for every name but ".", has the two components
    onnx and name and prints as onnx/name exactly; for the name "." the
    path has the single component onnx and prints as onnx, the base
    directory. *)
Theorem output_dir_of_wellformed_id (ns name : string) :
  ns <> "" -> name <> "" ->
  contains "/" ns = false -> contains "/" name = false ->
  model_name (ns ++ "/" ++ name) = Ok name /\
  exists dir,
    onnx_path (ns ++ "/" ++ name) = Ok dir /\
    root dir = "" /\
    tail dir = (if String.eqb name "." then ["onnx"] else ["onnx"; name]) /\
    path_str dir
    = (if String.eqb name "." then "onnx" else "onnx/" ++ name)%string.
Proof.
  intros _ Hne Hns Hname.
  pose proof (model_name_wellformed ns name Hns Hname) as Hm.
  split; [exact Hm|]. exists (Path ("onnx/" ++ name)).
  split; [unfold onnx_path; rewrite Hm; reflexivity|].
  destruct (String.eqb name ".") eqn:Hdot.
  - apply String.eqb_eq in Hdot. subst name. repeat split.
  - apply String.eqb_neq in Hdot.
    rewrite (Path_onnx_sub name Hname Hne Hdot). repeat split.
Qed.

(** The first entry of the list: google/flan-t5-xl goes to
    onnx/flan-t5-xl. *)
Lemma output_dir_flan_t5_xl :
  exists dir,
    onnx_path "google/flan-t5-xl" = Ok dir /\
    root dir = "" /\
    tail dir = ["onnx"; "flan-t5-xl"] /\
    path_str dir = "onnx/flan-t5-xl".
Proof.
  refine (proj2 (output_dir_of_wellformed_id "google" "flan-t5-xl"
                   _ _ eq_refl eq_refl)); discriminate.
Defined.

(** C1 as stated fails: google/. has one '/' and non-empty segments, and
    its directory is the base directory onnx, not onnx/. *)
Lemma dot_name_derives_base_dir :
  contains "/" "google" = false /\ contains "/" "." = false /\
  onnx_path "google/." = Ok base_dir /\
  tail base_dir = ["onnx"] /\
  path_str base_dir = "onnx" /\
  tail base_dir <> ["onnx"; "."] /\
  path_str base_dir <> "onnx/.".
Proof.
  repeat split; discriminate.
Qed.

(** C2, as the code has it: for every identifier that contains a '/', the
    derived name is the text between the first '/' and the next one (up to
    the end when there is no second '/'); when the identifier has exactly
    one '/', that is the substring after the last '/'. *)
Theorem model_name_is_second_segment (model_id : string) :
  contains "/" model_id = true ->
  model_name model_id = Ok (before_first "/" (after_first "/" model_id)) /\
  (count "/" model_id = 1 ->
   model_name model_id = Ok (after_last "/" model_id)).
Proof.
  intros H. split; [exact (model_name_slash _ H)|].
  intros Hone. rewrite (after_last_one_sep _ _ Hone).
  exact (model_name_slash _ H).
Qed.

(** With two slashes the name is the middle segment. *)
Lemma model_name_a_b_c : model_name "a/b/c" = Ok "b".
Proof.
  exact (proj1 (model_name_is_second_segment "a/b/c" eq_refl)).
Defined.

(** C2 as stated fails: "a/b/c" contains a '/', the substring after its
    last '/' is "c", and the derived name is "b". *)
Lemma model_name_not_after_last :
  contains "/" "a/b/c" = true /\
  after_last "/" "a/b/c" = "c" /\
  model_name "a/b/c" = Ok "b" /\
  model_name "a/b/c" <> Ok (after_last "/" "a/b/c").
Proof.
  repeat split; discriminate.
Qed.

(** ** Initial segments of a call sequence *)

Lemma prefix_nil {A : Type} (l : list A) : prefix [] l.
Proof. exists l. reflexivity. Qed.

Lemma prefix_refl {A : Type} (l : list A) : prefix l l.
Proof. exists []. symmetry. apply app_nil_r. Qed.

Lemma prefix_cons {A : Type} (a : A) (l1 l2 : list A) :
  prefix l1 l2 -> prefix (a :: l1) (a :: l2).
Proof. intros [k ->]. exists k. reflexivity. Qed.

Lemma prefix_app {A : Type} (l l1 l2 : list A) :
  prefix l1 l2 -> prefix (l ++ l1) (l ++ l2).
Proof. intros [k ->]. exists k. apply app_assoc. Qed.

Lemma prefix_app_r {A : Type} (l1 l2 k : list A) :
  prefix l1 l2 -> prefix l1 (l2 ++ k).
Proof. intros [k' ->]. exists (k' ++ k). symmetry. apply app_assoc. Qed.

Lemma prefix_In {A : Type} (l1 l2 : list A) (a : A) :
  prefix l1 l2 -> In a l1 -> In a l2.
Proof. intros [k ->] H. apply in_or_app. left. exact H. Qed.

Lemma strings_eqb_eq (l1 l2 : list string) :
  strings_eqb l1 l2 = true <-> l1 = l2.
Proof.
  revert l2. induction l1 as [|x r1 IH]; intros [|y r2]; simpl;
    try (split; [discriminate|congruence]); [tauto|].
  rewrite andb_true_iff, String.eqb_eq, IH.
  split; [intros [-> ->]; reflexivity|intros H; inversion H; tauto].
Qed.

Lemma path_eqb_eq (p q : PosixPath) : path_eqb p q = true <-> p = q.
Proof.
  destruct p as [r1 t1], q as [r2 t2]. unfold path_eqb. simpl.
  rewrite andb_true_iff, String.eqb_eq, strings_eqb_eq.
  split; [intros [-> ->]; reflexivity|intros H; inversion H; tauto].
Qed.

Lemma path_eqb_refl (p : PosixPath) : path_eqb p p = true.
Proof. apply path_eqb_eq. reflexivity. Qed.

(** ** Runs of the loop *)

Ltac unfold_calls :=
  unfold export_model, print_version, bind, lift, extern, ret; simpl.

Ltac run_calls :=
  repeat match goal with
  | |- context [ORTModelForSeq2SeqLM_from_pretrained ?l ?i ?b ?w] =>
      destruct (ORTModelForSeq2SeqLM_from_pretrained l i b w)
        as [? [?|?]] eqn:?; simpl
  | |- context [AutoTokenizer_from_pretrained ?l ?i ?w] =>
      destruct (AutoTokenizer_from_pretrained l i w) as [? [?|?]] eqn:?; simpl
  | |- context [model_save_pretrained ?l ?m ?d ?w] =>
      destruct (model_save_pretrained l m d w) as [? [[]|?]] eqn:?; simpl
  | |- context [tokenizer_save_pretrained ?l ?t ?d ?w] =>
      destruct (tokenizer_save_pretrained l t d w) as [? [[]|?]] eqn:?; simpl
  end.

Section Runs.
Context {World Model Tokenizer : Type}.
Variable lib : Library World Model Tokenizer.
Implicit Types (s : state World Model Tokenizer) (l : list string).

Lemma export_model_no_path (model_id : string) (e : exn) s :
  onnx_path model_id = Raise e -> export_model lib model_id s = (s, Raise e).
Proof. intros H. unfold_calls. rewrite H. reflexivity. Qed.

Lemma for_models_app l1 l2 s :
  for_models lib (l1 ++ l2) s
  = match for_models lib l1 s with
    | (s1, Ok _) => for_models lib l2 s1
    | (s1, Raise e) => (s1, Raise e)
    end.
Proof.
  revert s. induction l1 as [|model_id rest IH]; intros s; simpl.
  - reflexivity.
  - unfold bind. destruct (export_model lib model_id s) as [s1 [u|e]].
    + apply IH.
    + reflexivity.
Qed.

Lemma for_models_cons (model_id : string) l s :
  for_models lib (model_id :: l) s
  = match export_model lib model_id s with
    | (s1, Ok _) => for_models lib l s1
    | (s1, Raise e) => (s1, Raise e)
    end.
Proof. reflexivity. Qed.

(** The calls of one iteration: none when the directory cannot be derived,
    else an initial segment of the four calls, all four when it completes. *)
Lemma export_model_calls (model_id : string) s :
  exists new,
    log (fst (export_model lib model_id s)) = log s ++ new /\
    match onnx_path model_id with
    | Raise e => new = []
    | Ok dir =>
        prefix (map shape new) (iteration_ops model_id dir) /\
        (snd (export_model lib model_id s) = Ok tt ->
         map shape new = iteration_ops model_id dir)
    end.
Proof.
  unfold_calls. destruct (onnx_path model_id) as [dir|e]; simpl.
  2: { exists []. split; [symmetry; apply app_nil_r|reflexivity]. }
  run_calls; eexists; (split; [rewrite <- ?app_assoc; simpl; reflexivity|]);
    simpl; (split; [|first [reflexivity|discriminate]]);
    unfold iteration_ops; repeat apply prefix_cons;
    first [apply prefix_nil | apply prefix_refl].
Qed.

Lemma for_models_calls l s :
  exists new,
    log (fst (for_models lib l s)) = log s ++ new /\
    prefix (map shape new) (planned_ops l) /\
    (snd (for_models lib l s) = Ok tt ->
     map shape new = planned_ops l /\
     Forall (fun model_id => exists dir, onnx_path model_id = Ok dir) l).
Proof.
  revert s. induction l as [|model_id rest IH]; intros s.
  - exists []. simpl. split; [symmetry; apply app_nil_r|].
    split; [apply prefix_nil|]. intros _. split; [reflexivity|constructor].
  - rewrite for_models_cons.
    destruct (export_model_calls model_id s) as (new1 & Hlog1 & H1).
    destruct (export_model lib model_id s) as [s1 [[]|e]] eqn:Hrun;
      simpl in Hlog1, H1.
    + destruct (IH s1) as (new2 & Hlog2 & Hpre2 & Hok2).
      exists (new1 ++ new2). rewrite Hlog2, Hlog1, app_assoc.
      split; [reflexivity|]. cbn [planned_ops].
      destruct (onnx_path model_id) as [dir|e] eqn:Hpath.
      * destruct H1 as [_ H1]. rewrite map_app, (H1 eq_refl).
        split; [apply prefix_app; exact Hpre2|].
        intros Hok. destruct (Hok2 Hok) as [Heq Hall].
        rewrite Heq. split; [reflexivity|].
        constructor; [exists dir; exact Hpath|exact Hall].
      * rewrite (export_model_no_path _ _ _ Hpath) in Hrun. discriminate.
    + exists new1. cbn [planned_ops fst snd]. split; [exact Hlog1|].
      split; [|discriminate].
      destruct (onnx_path model_id) as [dir|e'].
      * apply prefix_app_r, H1.
      * subst new1. apply prefix_nil.
Qed.

(** When every identifier has a '/' and the calls succeed, every iteration
    completes, and so does the run. *)
Lemma for_models_completes l s :
  (forall model_id, In model_id l -> contains "/" model_id = true) ->
  calls_succeed lib l ->
  snd (for_models lib l s) = Ok tt.
Proof.
  intros Hslash (Hload & Htok & Hsm & Hst). revert s.
  induction l as [|model_id rest IH]; intros s; [reflexivity|].
  assert (Hin : In model_id (model_id :: rest)) by (left; reflexivity).
  rewrite for_models_cons.
  assert (Hone : exists s1, export_model lib model_id s = (s1, Ok tt)).
  { unfold_calls. unfold onnx_path.
    rewrite (model_name_slash _ (Hslash _ Hin)). cbn [fst snd].
    destruct (Hload model_id (world s) Hin) as (w1 & m & ->). simpl.
    destruct (Htok model_id w1 Hin) as (w2 & t & ->). simpl.
    match goal with |- context [model_save_pretrained lib m ?d w2] =>
      destruct (Hsm m d w2) as (w3 & ->); simpl;
      destruct (Hst t d w3) as (w4 & ->)
    end.
    eexists. reflexivity. }
  destruct Hone as (s1 & ->).
  apply IH.
  - intros i Hi. apply Hslash. right. exact Hi.
  - intros i w Hi. apply Hload. right. exact Hi.
  - intros i w Hi. apply Htok. right. exact Hi.
Qed.
End Runs.

Section Failures.
Context {World Model Tokenizer : Type}.
Variable lib : Library World Model Tokenizer.
Implicit Types (s : state World Model Tokenizer) (l pre post : list string).

(** C3: for an identifier without '/', the split has one piece, index 1 is
    out of range and line 20 raises IndexError; the iteration makes no call
    and leaves the state as it was.  A run over a list that holds the
    identifier ends in the state the earlier identifiers left, world and
    call log: no load, conversion or save call is made for the identifier
    or for any later one; and it ends with the IndexError when the earlier
    identifiers completed. *)
Theorem no_slash_raises_index_error pre (model_id : string) post s :
  contains "/" model_id = false ->
  split "/" model_id = [model_id] /\
  model_name model_id = Raise IndexError /\
  (forall s0, export_model lib model_id s0 = (s0, Raise IndexError)) /\
  fst (for_models lib (pre ++ model_id :: post) s)
    = fst (for_models lib pre s) /\
  (snd (for_models lib pre s) = Ok tt ->
   snd (for_models lib (pre ++ model_id :: post) s) = Raise IndexError).
Proof.
  intros Hno.
  pose proof (model_name_no_slash _ Hno) as Hname.
  assert (Hpath : onnx_path model_id = Raise IndexError).
  { unfold onnx_path. rewrite Hname. reflexivity. }
  split; [apply split_no_sep, Hno|]. split; [exact Hname|].
  split; [intros s0; apply export_model_no_path, Hpath|].
  rewrite for_models_app.
  destruct (for_models lib pre s) as [s1 [[]|e]]; cbn [fst snd].
  - rewrite for_models_cons, (export_model_no_path lib _ _ _ Hpath).
    split; reflexivity.
  - split; [reflexivity|discriminate].
Qed.

(** C4: when the conversion call raises for a model of the list, the run
    ends with that exception right after the call: the log is the log of
    the earlier models followed by that one load call, so no save call is
    made for the model and no call at all for a later one; the save calls
    of the run are those of the earlier models, and the world is the one
    the failing call returned, so whatever that call left of a directory is
    what the run leaves of it. *)
Theorem conversion_failure_stops_run pre (model_id : string) post s s1
    (dir : PosixPath) (w2 : World) (e : exn) :
  for_models lib pre s = (s1, Ok tt) ->
  onnx_path model_id = Ok dir ->
  ORTModelForSeq2SeqLM_from_pretrained lib model_id true (world s1)
    = (w2, Raise e) ->
  let final := for_models lib (pre ++ model_id :: post) s in
  final = (mkState w2 (log s1 ++ [CallLoadModel model_id true]), Raise e) /\
  filter is_save (map shape (log (fst final)))
    = filter is_save (map shape (log s1)) /\
  (forall (C : Type) (contents : World -> PosixPath -> C) (p : PosixPath),
     contents w2 p = contents (world s1) p ->
     contents (world (fst final)) p = contents (world s1) p).
Proof.
  intros Hpre Hpath Hload final.
  assert (Hfinal : final
    = (mkState w2 (log s1 ++ [CallLoadModel model_id true]), Raise e)).
  { unfold final. rewrite for_models_app, Hpre, for_models_cons.
    unfold_calls. rewrite Hpath. simpl. rewrite Hload. reflexivity. }
  rewrite Hfinal. simpl. split; [reflexivity|]. split.
  - rewrite map_app, filter_app. simpl. apply app_nil_r.
  - intros C contents p H. exact H.
Qed.

(** C10: when the tokenizer load raises for a model whose conversion
    succeeded, the run ends with that exception right after the two load
    calls: no save call is made for the model, of the converted model or
    of the tokenizer. *)
Theorem tokenizer_failure_saves_nothing pre (model_id : string) post s s1
    (dir : PosixPath) (w2 w3 : World) (m : Model) (e : exn) :
  for_models lib pre s = (s1, Ok tt) ->
  onnx_path model_id = Ok dir ->
  ORTModelForSeq2SeqLM_from_pretrained lib model_id true (world s1)
    = (w2, Ok m) ->
  AutoTokenizer_from_pretrained lib model_id w2 = (w3, Raise e) ->
  let final := for_models lib (pre ++ model_id :: post) s in
  final
    = (mkState w3
         (log s1 ++ [CallLoadModel model_id true; CallLoadTokenizer model_id]),
       Raise e) /\
  filter is_save (map shape (log (fst final)))
    = filter is_save (map shape (log s1)).
Proof.
  intros Hpre Hpath Hload Htok final.
  assert (Hfinal : final
    = (mkState w3
         (log s1 ++ [CallLoadModel model_id true; CallLoadTokenizer model_id]),
       Raise e)).
  { unfold final. rewrite for_models_app, Hpre, for_models_cons.
    unfold_calls. rewrite Hpath. simpl. rewrite Hload. simpl.
    rewrite Htok. rewrite <- app_assoc. reflexivity. }
  rewrite Hfinal. simpl. split; [reflexivity|].
  rewrite map_app, filter_app. simpl. apply app_nil_r.
Qed.
End Failures.

Section Order.
Context {World Model Tokenizer : Type}.
Variable lib : Library World Model Tokenizer.
Implicit Types (s : state World Model Tokenizer) (l : list string).

(** C5: the calls of a run over a list are an initial segment of the
    planned sequence, which takes the identifiers in list order and gives
    each its four calls together: load and convert the model, load the
    tokenizer, save the model, save the tokenizer.  A run that completes
    makes exactly the planned calls, every identifier having a directory;
    and the run does complete, every model processed, when every identifier
    has a '/' and the library calls succeed.  The directory is derived
    first: when the derivation raises, the iteration has made no call. *)
Theorem calls_in_list_order l s :
  (exists new,
     log (fst (for_models lib l s)) = log s ++ new /\
     prefix (map shape new) (planned_ops l) /\
     (snd (for_models lib l s) = Ok tt ->
      map shape new = planned_ops l /\
      exists dirs, map onnx_path l = map Ok dirs /\
        planned_ops l
        = concat (map (fun '(model_id, dir) => iteration_ops model_id dir)
                      (combine l dirs))) /\
     ((forall model_id, In model_id l -> contains "/" model_id = true) ->
      calls_succeed lib l ->
      snd (for_models lib l s) = Ok tt /\
      map shape new = planned_ops l /\
      length new = 4 * length l)) /\
  (forall model_id e s0,
     onnx_path model_id = Raise e ->
     export_model lib model_id s0 = (s0, Raise e)).
Proof.
  split; [|intros model_id e s0; apply export_model_no_path].
  destruct (for_models_calls lib l s) as (new & Hlog & Hpre & Hok).
  exists new. split; [exact Hlog|]. split; [exact Hpre|]. split.
  - intros Hdone. destruct (Hok Hdone) as [Heq Hall].
    split; [exact Heq|]. clear - Hall.
    induction Hall as [|model_id rest [dir Hdir] _ (dirs & Hmap & Hplan)].
    + exists []. split; reflexivity.
    + exists (dir :: dirs). simpl. rewrite Hdir, Hmap, Hplan.
      split; reflexivity.
  - intros Hslash Hsucc.
    pose proof (for_models_completes lib l s Hslash Hsucc) as Hdone.
    destruct (Hok Hdone) as [Heq Hall].
    split; [exact Hdone|]. split; [exact Heq|].
    rewrite <- (length_map shape), Heq. clear - Hall.
    induction Hall as [|model_id rest [dir Hdir] _ IH];
      cbn [planned_ops length]; [reflexivity|].
    rewrite Hdir, length_app, IH. unfold iteration_ops. cbn [length]. lia.
Qed.

Lemma export_model_block (model_id : string) s :
  exists block,
    log (fst (export_model lib model_id s)) = log s ++ block /\
    calls_agree model_id block.
Proof.
  unfold_calls. destruct (onnx_path model_id) as [dir|e] eqn:Hpath; simpl.
  2: { exists []. split; [symmetry; apply app_nil_r|intros c []]. }
  run_calls; eexists;
    (split; [rewrite <- ?app_assoc; simpl; reflexivity|]);
    intros c Hin; simpl in Hin;
    repeat (destruct Hin as [<-|Hin]; [try reflexivity; exact Hpath|]);
    destruct Hin.
Qed.

Lemma calls_agree_pairs (model_id : string)
    (block : list (call Model Tokenizer)) :
  calls_agree model_id block ->
  (forall i b j,
     In (CallLoadModel i b) block -> In (CallLoadTokenizer j) block ->
     j = i) /\
  (forall m t d1 d2,
     In (CallSaveModel m d1) block -> In (CallSaveTokenizer t d2) block ->
     d2 = d1).
Proof.
  intros H. split.
  - intros i b j Hi Hj. apply H in Hi, Hj. simpl in Hi, Hj. congruence.
  - intros m t d1 d2 H1 H2. apply H in H1, H2. simpl in H1, H2. congruence.
Qed.

Lemma shape_in_iteration_agrees (model_id : string) (dir : PosixPath)
    (block : list (call Model Tokenizer)) :
  onnx_path model_id = Ok dir ->
  (forall c, In c block ->
     In (shape c) (iteration_ops model_id dir)) ->
  calls_agree model_id block.
Proof.
  intros Hdir H c Hc. apply H in Hc. unfold iteration_ops in Hc.
  destruct c; simpl in Hc;
    repeat (destruct Hc as [Hc|Hc]; [try discriminate; inversion Hc|]);
    try destruct Hc; subst; simpl; auto.
Qed.

Lemma complete_block_agrees (model_id : string)
    (block : list (call Model Tokenizer)) :
  complete_block model_id block -> calls_agree model_id block.
Proof.
  intros (dir & Hdir & Hshape).
  apply (shape_in_iteration_agrees _ dir); [exact Hdir|].
  intros c Hc. unfold iteration_ops. rewrite <- Hshape.
  apply in_map, Hc.
Qed.

Lemma partial_block_agrees (model_id : string)
    (block : list (call Model Tokenizer)) :
  partial_block model_id block -> calls_agree model_id block.
Proof.
  intros [[-> _]|(dir & Hdir & _ & Hpre)]; [intros c []|].
  apply (shape_in_iteration_agrees _ dir); [exact Hdir|].
  intros c Hc. apply (prefix_In _ _ _ Hpre), in_map, Hc.
Qed.

(** The block one iteration appends to the log. *)
Lemma export_model_appends (model_id : string) s :
  exists block,
    log (fst (export_model lib model_id s)) = log s ++ block /\
    (snd (export_model lib model_id s) = Ok tt ->
     complete_block model_id block) /\
    (forall e, snd (export_model lib model_id s) = Raise e ->
     partial_block model_id block).
Proof.
  unfold complete_block, partial_block.
  unfold_calls. destruct (onnx_path model_id) as [dir|e0] eqn:Hdir; simpl.
  2: { exists []. split; [symmetry; apply app_nil_r|].
       split; [discriminate|]. intros e _. left. eauto. }
  run_calls; eexists;
    (split; [rewrite <- ?app_assoc; simpl; reflexivity|]);
    (split;
     [first [discriminate|intros _; exists dir; split; reflexivity]
     |first [discriminate
            |intros e' _; right; exists dir;
             split; [reflexivity|]; split; [discriminate|];
             simpl; repeat apply prefix_cons;
             first [apply prefix_nil|apply prefix_refl]]]).
Qed.

(** C7: every iteration appends one block of calls to the log, and a run
    appends the blocks of its iterations in list order: a complete block
    for each identifier it finished, then the partial block of the
    identifier it raised on, if any.  A complete block is the four calls
    with both loads on the identifier of the iteration and both saves into
    the directory derived from it; a partial block is an initial segment of
    these.  So in every block the tokenizer is loaded with the identifier
    the model was loaded with, and both saves target the same directory. *)
Theorem same_id_and_dir_per_iteration l s :
  (forall model_id s0,
     exists block,
       log (fst (export_model lib model_id s0)) = log s0 ++ block /\
       (snd (export_model lib model_id s0) = Ok tt ->
        complete_block model_id block) /\
       (forall e, snd (export_model lib model_id s0) = Raise e ->
        partial_block model_id block)) /\
  (exists done last,
     log (fst (for_models lib l s)) = log s ++ concat done ++ last /\
     Forall2 complete_block (firstn (length done) l) done /\
     (snd (for_models lib l s) = Ok tt ->
      length done = length l /\ last = []) /\
     (forall e, snd (for_models lib l s) = Raise e ->
      exists model_id,
        nth_error l (length done) = Some model_id /\
        partial_block model_id last) /\
     Forall (fun block =>
       (forall i b j,
          In (CallLoadModel i b) block -> In (CallLoadTokenizer j) block ->
          j = i) /\
       (forall m t d1 d2,
          In (CallSaveModel m d1) block ->
          In (CallSaveTokenizer t d2) block ->
          d2 = d1)) (done ++ [last])).
Proof.
  split; [intros model_id s0; apply export_model_appends|].
  assert (H : exists done last,
    log (fst (for_models lib l s)) = log s ++ concat done ++ last /\
    Forall2 complete_block (firstn (length done) l) done /\
    (snd (for_models lib l s) = Ok tt ->
     length done = length l /\ last = []) /\
    (forall e, snd (for_models lib l s) = Raise e ->
     exists model_id,
       nth_error l (length done) = Some model_id /\
       partial_block model_id last) /\
    exists model_id, calls_agree model_id last).
  { revert s. induction l as [|model_id rest IH]; intros s.
    - exists [], []. simpl. rewrite app_nil_r.
      split; [reflexivity|]. split; [constructor|].
      split; [auto|]. split; [discriminate|]. exists "". intros c [].
    - rewrite for_models_cons.
      destruct (export_model_appends model_id s)
        as (block & Hlog & Hok & Hraise).
      destruct (export_model lib model_id s) as [s1 [[]|e]];
        simpl in Hlog, Hok, Hraise.
      + destruct (IH s1) as (done & last & Hlogs & Hall & Hdone & Hfail & Hl).
        exists (block :: done), last. simpl.
        rewrite Hlogs, Hlog, <- !app_assoc.
        split; [reflexivity|].
        split; [constructor; [exact (Hok eq_refl)|exact Hall]|].
        split; [intros H; destruct (Hdone H) as [-> ->]; auto|].
        split; [exact Hfail|exact Hl].
      + exists [], block. simpl.
        split; [exact Hlog|]. split; [constructor|].
        split; [discriminate|].
        split; [intros e' [= <-]; exists model_id; split;
                  [reflexivity|exact (Hraise e eq_refl)]|].
        exists model_id.
        apply partial_block_agrees, (Hraise e eq_refl). }
  destruct H as (done & last & Hlog & Hall & Hdone & Hfail & Hl).
  exists done, last. repeat (split; [assumption|]).
  apply Forall_app. split.
  - clear - Hall.
    induction Hall as [|model_id block ids blocks Hblock _ IH];
      constructor; [|exact IH].
    exact (calls_agree_pairs _ _ (complete_block_agrees _ _ Hblock)).
  - constructor; [|constructor].
    destruct Hl as [model_id Hl]. exact (calls_agree_pairs _ _ Hl).
Qed.
End Order.

Section Configuration.
Context {World Model Tokenizer : Type}.
Variable lib : Library World Model Tokenizer.
Implicit Types (s : state World Model Tokenizer).




End Configuration.


(** ** Two runs over the same list *)

Section Determinism.
Context {World Model Tokenizer MF TF : Type}.
Variable lib : Library World Model Tokenizer.
Variable stored_model : Model -> MF.
Variable stored_tokenizer : Tokenizer -> TF.
Variable model_files : World -> PosixPath -> MF.
Variable tokenizer_files : World -> PosixPath -> TF.
Hypothesis Hdet :
  deterministic_overwriting lib stored_model stored_tokenizer
    model_files tokenizer_files.
Implicit Types (s t : state World Model Tokenizer) (l : list string).

(** What a completed iteration leaves in the directories. *)
Lemma export_model_files (model_id : string) s t :
  export_model lib model_id s = (t, Ok tt) ->
  exists dir m tk w1,
    onnx_path model_id = Ok dir /\
    ORTModelForSeq2SeqLM_from_pretrained lib model_id true (world s)
      = (w1, Ok m) /\
    snd (AutoTokenizer_from_pretrained lib model_id w1) = Ok tk /\
    forall p,
      model_files (world t) p
        = (if path_eqb dir p then stored_model m
           else model_files (world s) p) /\
      tokenizer_files (world t) p
        = (if path_eqb dir p then stored_tokenizer tk
           else tokenizer_files (world s) p).
Proof.
  unfold_calls. destruct (onnx_path model_id) as [dir|e]; simpl;
    [|discriminate].
  destruct (ORTModelForSeq2SeqLM_from_pretrained lib model_id true (world s))
    as [w1 [m|e]] eqn:Hm; simpl; [|discriminate].
  destruct (AutoTokenizer_from_pretrained lib model_id w1)
    as [w2 [tk|e]] eqn:Htk; simpl; [|discriminate].
  destruct (model_save_pretrained lib m dir w2)
    as [w3 [[]|e]] eqn:Hsm; simpl; [|discriminate].
  destruct (tokenizer_save_pretrained lib tk dir w3)
    as [w4 [[]|e]] eqn:Hst; simpl; [|discriminate].
  intros H. inversion H. subst t. clear H. simpl.
  exists dir, m, tk, w1. repeat (split; [reflexivity|]).
  split; [rewrite Htk; reflexivity|]. intros p.
  destruct (save_tokenizer_overwrites _ _ _ _ _ Hdet _ _ _ _ Hst p)
    as [Ht4 Hm4].
  destruct (save_model_overwrites _ _ _ _ _ Hdet _ _ _ _ Hsm p)
    as [Hm3 Ht3].
  pose proof (load_tokenizer_frame _ _ _ _ _ Hdet model_id w1 p) as H2.
  pose proof (load_model_frame _ _ _ _ _ Hdet model_id true (world s) p)
    as H1.
  rewrite Htk in H2. rewrite Hm in H1. simpl in H1, H2.
  destruct H1 as [Hm1 Ht1], H2 as [Hm2 Ht2].
  rewrite Hm4, Hm3, Ht4, Ht3, Hm2, Ht2, Hm1, Ht1. split; reflexivity.
Qed.

(** Two completed runs over the same list agree on every directory that
    the list writes, and on every directory they agreed on before. *)
Lemma runs_agree_on_files l :
  forall s1 s2 t1 t2,
    for_models lib l s1 = (t1, Ok tt) ->
    for_models lib l s2 = (t2, Ok tt) ->
    forall p,
      (model_files (world s1) p = model_files (world s2) p /\
       tokenizer_files (world s1) p = tokenizer_files (world s2) p) \/
      In (Ok p) (map onnx_path l) ->
      model_files (world t1) p = model_files (world t2) p /\
      tokenizer_files (world t1) p = tokenizer_files (world t2) p.
Proof.
  induction l as [|model_id rest IH]; intros s1 s2 t1 t2 H1 H2 p Hp.
  - simpl in H1, H2. inversion H1. inversion H2. subst.
    destruct Hp as [Hp|[]]. exact Hp.
  - rewrite for_models_cons in H1, H2.
    destruct (export_model lib model_id s1) as [u1 [[]|e]] eqn:E1;
      [|discriminate].
    destruct (export_model lib model_id s2) as [u2 [[]|e]] eqn:E2;
      [|discriminate].
    destruct (export_model_files _ _ _ E1)
      as (dir & m1 & tk1 & w1 & Hdir & Hm1 & Htk1 & Hf1).
    destruct (export_model_files _ _ _ E2)
      as (dir' & m2 & tk2 & w2 & Hdir' & Hm2 & Htk2 & Hf2).
    assert (dir' = dir) by congruence. subst dir'.
    apply (IH u1 u2 t1 t2 H1 H2 p).
    destruct (Hf1 p) as [Hm1p Ht1p], (Hf2 p) as [Hm2p Ht2p].
    destruct (path_eqb dir p) eqn:Ep.
    + left. rewrite Hm1p, Hm2p, Ht1p, Ht2p. split.
      * apply (load_model_same _ _ _ _ _ Hdet model_id true
                 (world s1) (world s2)).
        -- rewrite Hm1. reflexivity.
        -- rewrite Hm2. reflexivity.
      * exact (load_tokenizer_same _ _ _ _ _ Hdet model_id w1 w2
                 _ _ Htk1 Htk2).
    + destruct Hp as [Hp|[Hp|Hp]].
      * left. rewrite Hm1p, Hm2p, Ht1p, Ht2p. exact Hp.
      * assert (dir = p) by congruence. subst p.
        rewrite path_eqb_refl in Ep. discriminate.
      * right. exact Hp.
Qed.
End Determinism.

(** C8, as the code has it: two runs over the same list, from any two
    states of the world.  The directories are derived from the list alone,
    and the calls of either run are an initial segment of the sequence
    planned for the list; when both runs complete they make the same calls
    in the same order, on the same identifiers and directories.  If
    moreover the saves are deterministic and overwriting, the loads leave
    the directories alone and what is stored for an identifier does not
    depend on the world it was loaded in ([deterministic_overwriting]),
    every directory derived from an identifier of the list holds the same
    model files and the same tokenizer files after either run. *)
Theorem two_runs_agree {World Model Tokenizer : Type}
    (lib : Library World Model Tokenizer) (l : list string)
    (s1 s2 : state World Model Tokenizer) :
  exists new1 new2,
    log (fst (for_models lib l s1)) = log s1 ++ new1 /\
    log (fst (for_models lib l s2)) = log s2 ++ new2 /\
    prefix (map shape new1) (planned_ops l) /\
    prefix (map shape new2) (planned_ops l) /\
    (snd (for_models lib l s1) = Ok tt ->
     snd (for_models lib l s2) = Ok tt ->
     map shape new1 = planned_ops l /\
     map shape new2 = map shape new1 /\
     saved_dirs (map shape new2) = saved_dirs (map shape new1) /\
     forall (MF TF : Type) (stored_model : Model -> MF)
            (stored_tokenizer : Tokenizer -> TF)
            (model_files : World -> PosixPath -> MF)
            (tokenizer_files : World -> PosixPath -> TF),
       deterministic_overwriting lib stored_model stored_tokenizer
         model_files tokenizer_files ->
       forall model_id dir,
         In model_id l -> onnx_path model_id = Ok dir ->
         model_files (world (fst (for_models lib l s1))) dir
           = model_files (world (fst (for_models lib l s2))) dir /\
         tokenizer_files (world (fst (for_models lib l s1))) dir
           = tokenizer_files (world (fst (for_models lib l s2))) dir).
Proof.
  destruct (for_models_calls lib l s1) as (new1 & Hlog1 & Hpre1 & Hok1).
  destruct (for_models_calls lib l s2) as (new2 & Hlog2 & Hpre2 & Hok2).
  exists new1, new2. repeat (split; [assumption|]).
  intros Hdone1 Hdone2.
  destruct (Hok1 Hdone1) as [Heq1 _], (Hok2 Hdone2) as [Heq2 _].
  split; [exact Heq1|]. split; [congruence|]. split; [congruence|].
  intros MF TF stored_model stored_tokenizer model_files tokenizer_files
    Hdet model_id dir Hin Hdir.
  destruct (for_models lib l s1) as [t1 r1] eqn:E1.
  destruct (for_models lib l s2) as [t2 r2] eqn:E2.
  simpl in Hdone1, Hdone2. subst r1 r2. simpl.
  apply (runs_agree_on_files lib _ _ _ _ Hdet l s1 s2 t1 t2 E1 E2).
  right. rewrite <- Hdir. apply in_map, Hin.
Qed.

(** ** Runs that complete *)



(** ** The properties on the small instance *)

Lemma toy_library_deterministic :
  deterministic_overwriting toy_library (@Some string) (@Some string)
    disk_model_files disk_tokenizer_files.
Proof.
  constructor; simpl.
  - intros. split; reflexivity.
  - intros. split; reflexivity.
  - intros model_id _ _ _ m1 m2.
    destruct (existsb (String.eqb model_id) hub_models); congruence.
  - intros model_id _ _ t1 t2.
    destruct (existsb (String.eqb model_id) hub_tokenizers); congruence.
  - intros m dir w w' H p. inversion H. simpl.
    split; [destruct (path_eqb dir p)|]; reflexivity.
  - intros t dir w w' H p. inversion H. simpl.
    split; [destruct (path_eqb dir p)|]; reflexivity.
Qed.

Example toy_script_calls :
  map shape (log (fst (script toy_library start)))
  = OpPrint "transformers version: 4.26.0" :: planned_ops models /\
  snd (script toy_library start) = Ok tt.
Proof. split; reflexivity. Qed.

(** An identifier without '/' between the two entries: the run ends where
    the first entry left it. *)
Lemma no_slash_run_on_toy_library :
  for_models toy_library
    ["google/flan-t5-xl"; "flan-t5-xxl"; "google/flan-t5-xxl"] start
  = (fst (for_models toy_library ["google/flan-t5-xl"] start),
     Raise IndexError).
Proof.
  destruct (no_slash_raises_index_error toy_library
              ["google/flan-t5-xl"] "flan-t5-xxl" ["google/flan-t5-xxl"]
              start eq_refl)
    as (_ & _ & _ & Hstate & Hresult).
  rewrite <- Hstate, <- (Hresult eq_refl). apply surjective_pairing.
Defined.

(** A checkpoint the hub does not know between the two entries. *)
Lemma conversion_failure_on_toy_library :
  let s1 := fst (for_models toy_library ["google/flan-t5-xl"] start) in
  for_models toy_library
    ["google/flan-t5-xl"; "acme/unknown"; "google/flan-t5-xxl"] start
  = (mkState (world s1) (log s1 ++ [CallLoadModel "acme/unknown" true]),
     Raise (LibraryError "onnx not found")).
Proof.
  intros s1.
  exact (proj1
    (conversion_failure_stops_run toy_library
       ["google/flan-t5-xl"] "acme/unknown" ["google/flan-t5-xxl"] start s1
       (Path "onnx/unknown") (world s1) (LibraryError "onnx not found")
       eq_refl eq_refl eq_refl)).
Defined.

(** A checkpoint without tokenizer between the two entries. *)
Lemma tokenizer_failure_on_toy_library :
  let s1 := fst (for_models toy_library ["google/flan-t5-xl"] start) in
  for_models toy_library
    ["google/flan-t5-xl"; "acme/no-tokenizer"; "google/flan-t5-xxl"] start
  = (mkState (world s1)
       (log s1 ++ [CallLoadModel "acme/no-tokenizer" true;
                   CallLoadTokenizer "acme/no-tokenizer"]),
     Raise (LibraryError "tokenizer not found")).
Proof.
  intros s1.
  exact (proj1
    (tokenizer_failure_saves_nothing toy_library
       ["google/flan-t5-xl"] "acme/no-tokenizer" ["google/flan-t5-xxl"]
       start s1 (Path "onnx/no-tokenizer") (world s1) (world s1)
       "onnx:acme/no-tokenizer" (LibraryError "tokenizer not found")
       eq_refl eq_refl eq_refl eq_refl)).
Defined.


(** A second run, started in the world the first run left, leaves in
    onnx/flan-t5-xl the files the first run left there. *)
Lemma second_run_on_toy_library :
  let first := fst (for_models toy_library models start) in
  let second := fst (for_models toy_library models first) in
  disk_model_files (world first) (Path "onnx/flan-t5-xl")
    = disk_model_files (world second) (Path "onnx/flan-t5-xl") /\
  disk_tokenizer_files (world first) (Path "onnx/flan-t5-xl")
    = disk_tokenizer_files (world second) (Path "onnx/flan-t5-xl").
Proof.
  intros first second.
  destruct (two_runs_agree toy_library models start first)
    as (new1 & new2 & _ & _ & _ & _ & Hdone).
  destruct (Hdone eq_refl eq_refl) as (_ & _ & _ & Hfiles).
  exact (Hfiles _ _ _ _ _ _ toy_library_deterministic
           "google/flan-t5-xl" (Path "onnx/flan-t5-xl")
           (or_introl eq_refl) eq_refl).
Defined.

(** * Further properties of the script *)

(** ** The derived directory *)

Lemma model_name_ok (model_id name : string) :
  model_name model_id = Ok name ->
  contains "/" model_id = true /\
  name = before_first "/" (after_first "/" model_id) /\
  contains "/" name = false.
Proof.
  intros H. destruct (contains "/" model_id) eqn:Hs.
  - rewrite (model_name_slash _ Hs) in H. inversion H.
    repeat split. apply contains_before_first.
  - rewrite (model_name_no_slash _ Hs) in H. discriminate.
Qed.

Lemma Path_onnx_name (name : string) :
  contains "/" name = false ->
  Path ("onnx/" ++ name)
  = mkPath "" ("onnx" :: if is_component name then [name] else []).
Proof.
  intros Hs. unfold Path. simpl. rewrite (split_no_sep _ _ Hs). simpl.
  destruct (is_component name); reflexivity.
Qed.

(** Lines 20-21 derive a directory exactly for the identifiers that contain
    a '/', and the only exception they raise is the IndexError of an
    identifier without one. *)
Theorem derivation_ok_iff_slash (model_id : string) :
  (contains "/" model_id = true <-> exists dir, onnx_path model_id = Ok dir)
  /\
  (forall e, onnx_path model_id = Raise e ->
     e = IndexError /\ contains "/" model_id = false).
Proof.
  unfold onnx_path. destruct (contains "/" model_id) eqn:Hs.
  - rewrite (model_name_slash _ Hs). split.
    + split; [intros _; eexists; reflexivity|reflexivity].
    + intros e H. discriminate.
  - rewrite (model_name_no_slash _ Hs). split.
    + split; [discriminate|intros [dir H]; discriminate].
    + intros e H. inversion H. split; reflexivity.
Qed.

(** Every derived directory is a relative path whose first component is
    onnx, followed by the derived name when the name is a real component
    (neither empty nor ".") and by nothing otherwise; the name never
    contains a '/', so the directory is never deeper than one level below
    onnx and never absolute. *)
Theorem derived_dir_shape (model_id : string) (dir : PosixPath) :
  onnx_path model_id = Ok dir ->
  exists name,
    model_name model_id = Ok name /\
    contains "/" name = false /\
    root dir = "" /\
    tail dir = "onnx" :: (if is_component name then [name] else []).
Proof.
  unfold onnx_path. destruct (model_name model_id) as [name|e] eqn:Hn;
    [|discriminate].
  intros H. assert (Hdir : dir = Path ("onnx/" ++ name)) by congruence.
  subst dir. clear H.
  destruct (model_name_ok _ _ Hn) as (_ & _ & Hs).
  exists name. rewrite (Path_onnx_name _ Hs). repeat split. exact Hs.
Qed.

(** The directory of google/flan-t5-xl is relative, with the components
    onnx and flan-t5-xl. *)
Lemma derived_dir_shape_flan_t5_xl :
  exists name,
    model_name "google/flan-t5-xl" = Ok name /\
    contains "/" name = false /\
    root (Path "onnx/flan-t5-xl") = "" /\
    tail (Path "onnx/flan-t5-xl")
      = "onnx" :: (if is_component name then [name] else []).
Proof.
  exact (derived_dir_shape "google/flan-t5-xl" (Path "onnx/flan-t5-xl")
           eq_refl).
Defined.

(** Two identifiers whose derived names are real components get the same
    directory exactly when the names are equal: different names never
    share a directory, and the same name under two namespaces always
    does. *)
Theorem same_dir_iff_same_name (id1 id2 name1 name2 : string) :
  model_name id1 = Ok name1 -> model_name id2 = Ok name2 ->
  is_component name1 = true -> is_component name2 = true ->
  (onnx_path id1 = onnx_path id2 <-> name1 = name2).
Proof.
  intros H1 H2 Hc1 Hc2. unfold onnx_path. rewrite H1, H2.
  destruct (model_name_ok _ _ H1) as (_ & _ & Hs1).
  destruct (model_name_ok _ _ H2) as (_ & _ & Hs2).
  rewrite (Path_onnx_name _ Hs1), (Path_onnx_name _ Hs2), Hc1, Hc2.
  split; intros H; [inversion H|subst]; reflexivity.
Qed.

(** The same name under another namespace: the same directory. *)
Lemma same_dir_two_namespaces :
  onnx_path "google/flan-t5-xl" = onnx_path "mirror/flan-t5-xl".
Proof.
  exact (proj2 (same_dir_iff_same_name
                  "google/flan-t5-xl" "mirror/flan-t5-xl"
                  "flan-t5-xl" "flan-t5-xl"
                  eq_refl eq_refl eq_refl eq_refl) eq_refl).
Defined.

(** ** What a run calls, and how often *)

Lemma planned_ops_In (o : op) (l : list string) :
  In o (planned_ops l) ->
  exists model_id dir,
    In model_id l /\ onnx_path model_id = Ok dir /\
    In o (iteration_ops model_id dir).
Proof.
  induction l as [|model_id rest IH]; cbn [planned_ops]; [intros []|].
  destruct (onnx_path model_id) as [dir|e] eqn:Hdir; [|intros []].
  intros H. apply in_app_or in H as [H|H].
  - exists model_id, dir.
    split; [left; reflexivity|]. split; [exact Hdir|exact H].
  - destruct (IH H) as (i & d & Hi & Hd & Ho). exists i, d.
    split; [right; exact Hi|]. split; [exact Hd|exact Ho].
Qed.

Lemma planned_ops_length (l : list string) :
  length (planned_ops l) <= 4 * length l /\
  (Forall (fun model_id => exists dir, onnx_path model_id = Ok dir) l ->
   length (planned_ops l) = 4 * length l).
Proof.
  induction l as [|model_id rest [IHle IHeq]];
    cbn [planned_ops length]; [auto|].
  destruct (onnx_path model_id) as [dir|e] eqn:Hdir.
  - rewrite length_app. unfold iteration_ops. cbn [length]. split; [lia|].
    intros H. inversion H. subst. rewrite (IHeq H3). lia.
  - cbn [length]. split; [lia|]. intros H. inversion H. subst.
    destruct H2 as [dir Hd]. congruence.
Qed.

Lemma onnx_path_raise (model_id : string) (e : exn) :
  onnx_path model_id = Raise e ->
  e = IndexError /\ contains "/" model_id = false.
Proof.
  unfold onnx_path. destruct (contains "/" model_id) eqn:Hs.
  - rewrite (model_name_slash _ Hs). discriminate.
  - rewrite (model_name_no_slash _ Hs). intros [= <-]. auto.
Qed.

Lemma prefix_length {A : Type} (l1 l2 : list A) :
  prefix l1 l2 -> length l1 <= length l2.
Proof. intros [k ->]. rewrite length_app. lia. Qed.

Lemma planned_ops_counts (l : list string) (model_id : string)
    (dir : PosixPath) :
  (model_loads model_id (planned_ops l) <= occurrences model_id l /\
   tokenizer_loads model_id (planned_ops l) <= occurrences model_id l /\
   model_saves dir (planned_ops l) <= derive_dir dir l /\
   tokenizer_saves dir (planned_ops l) <= derive_dir dir l) /\
  (Forall (fun i => exists d, onnx_path i = Ok d) l ->
   model_loads model_id (planned_ops l) = occurrences model_id l /\
   tokenizer_loads model_id (planned_ops l) = occurrences model_id l /\
   model_saves dir (planned_ops l) = derive_dir dir l /\
   tokenizer_saves dir (planned_ops l) = derive_dir dir l).
Proof.
  unfold model_loads, tokenizer_loads, model_saves, tokenizer_saves,
    occurrences, derive_dir.
  induction l as [|x rest [(L1 & L2 & L3 & L4) IHeq]];
    cbn [planned_ops filter length].
  - split; [repeat split; apply Nat.le_refl|intros _; repeat split].
  - rewrite (String.eqb_sym model_id x).
    destruct (onnx_path x) as [d|e] eqn:Hd.
    + unfold iteration_ops. rewrite !filter_app, !length_app.
      cbn [filter app].
      destruct (String.eqb x model_id), (path_eqb d dir);
        cbn [length]; (split; [repeat split; lia|]);
        intros H; apply Forall_inv_tail in H;
        destruct (IHeq H) as (E1 & E2 & E3 & E4); repeat split; lia.
    + cbn [filter length]. split; [repeat split; lia|].
      intros H. apply Forall_inv in H. destruct H as [d H]. congruence.
Qed.

Section Confinement.
Context {World Model Tokenizer : Type}.
Variable lib : Library World Model Tokenizer.
Implicit Types (s : state World Model Tokenizer) (l pre post : list string).

(** The loop calls the libraries on the list and on nothing else: every
    load is on an identifier of the list, a model is always loaded with
    [from_transformers=True], every save is into the directory derived from
    an identifier of the list, a relative path under onnx, and the loop
    prints nothing. *)
Theorem calls_confined_to_list l s :
  exists new,
    log (fst (for_models lib l s)) = log s ++ new /\
    forall c, In c new ->
      match shape c with
      | OpPrint _ => False
      | OpLoadModel model_id b => In model_id l /\ b = true
      | OpLoadTokenizer model_id => In model_id l
      | OpSaveModel dir | OpSaveTokenizer dir =>
          (exists model_id, In model_id l /\ onnx_path model_id = Ok dir) /\
          root dir = "" /\ hd_error (tail dir) = Some "onnx"
      end.
Proof.
  destruct (for_models_calls lib l s) as (new & Hlog & Hpre & _).
  exists new. split; [exact Hlog|]. intros c Hc.
  assert (Ho : In (shape c) (planned_ops l)).
  { apply (prefix_In _ _ _ Hpre), in_map, Hc. }
  destruct (planned_ops_In _ _ Ho) as (model_id & dir & Hin & Hdir & Hit).
  assert (Hshape : root dir = "" /\ hd_error (tail dir) = Some "onnx").
  { unfold onnx_path in Hdir.
    destruct (model_name model_id) as [name|e] eqn:Hn; [|discriminate].
    assert (Hd : dir = Path ("onnx/" ++ name)) by congruence.
    destruct (model_name_ok _ _ Hn) as (_ & _ & Hs).
    rewrite Hd, (Path_onnx_name _ Hs). split; reflexivity. }
  unfold iteration_ops in Hit. simpl in Hit.
  destruct Hit as [<-|[<-|[<-|[<-|[]]]]]; eauto.
Qed.

(** A run over a list of n identifiers makes at most 4 n library calls,
    and exactly 4 n when it completes.  No call is repeated: the model of
    an identifier is loaded, and its tokenizer is loaded, at most as often
    as the identifier occurs in the list, and a model, and a tokenizer, is
    saved into a directory at most as often as the list has identifiers
    deriving that directory; in a run that completes, exactly as often. *)
Theorem four_calls_per_model l s :
  exists new,
    log (fst (for_models lib l s)) = log s ++ new /\
    length new <= 4 * length l /\
    (forall model_id dir,
       model_loads model_id (map shape new) <= occurrences model_id l /\
       tokenizer_loads model_id (map shape new) <= occurrences model_id l /\
       model_saves dir (map shape new) <= derive_dir dir l /\
       tokenizer_saves dir (map shape new) <= derive_dir dir l) /\
    (snd (for_models lib l s) = Ok tt ->
     length new = 4 * length l /\
     forall model_id dir,
       model_loads model_id (map shape new) = occurrences model_id l /\
       tokenizer_loads model_id (map shape new) = occurrences model_id l /\
       model_saves dir (map shape new) = derive_dir dir l /\
       tokenizer_saves dir (map shape new) = derive_dir dir l).
Proof.
  destruct (for_models_calls lib l s) as (new & Hlog & Hpre & Hok).
  exists new. split; [exact Hlog|].
  destruct (planned_ops_length l) as [Hle Heq].
  pose proof (prefix_length _ _ Hpre) as Hlen. rewrite length_map in Hlen.
  split; [lia|]. split.
  - intros model_id dir.
    destruct (planned_ops_counts l model_id dir) as [(H1 & H2 & H3 & H4) _].
    destruct Hpre as [k Hk]. rewrite Hk in H1, H2, H3, H4.
    unfold model_loads, tokenizer_loads, model_saves, tokenizer_saves
      in *.
    rewrite filter_app, length_app in H1, H2, H3, H4. lia.
  - intros Hdone. destruct (Hok Hdone) as [Hnew Hall].
    split; [rewrite <- (Heq Hall), <- Hnew, length_map; reflexivity|].
    intros model_id dir. rewrite Hnew.
    exact (proj2 (planned_ops_counts l model_id dir) Hall).
Qed.

(** Running a list in two batches: when the first batch completes, the run
    over the whole list is the run over the second batch from the state
    the first one left; when the first batch raises, the run over the whole
    list is the run over the first batch, and the second is not started. *)
Theorem run_in_batches l1 l2 s :
  (snd (for_models lib l1 s) = Ok tt ->
   for_models lib (l1 ++ l2) s
   = for_models lib l2 (fst (for_models lib l1 s))) /\
  (forall e, snd (for_models lib l1 s) = Raise e ->
   for_models lib (l1 ++ l2) s = for_models lib l1 s).
Proof.
  rewrite for_models_app.
  destruct (for_models lib l1 s) as [s1 [[]|e]]; simpl.
  - split; [reflexivity|discriminate].
  - split; [discriminate|reflexivity].
Qed.

(** ** Failures *)

(** A run that raises stopped at the first iteration that raised: the
    identifiers before it completed, the final state and the exception are
    those of that iteration, and no later identifier was started. *)
Theorem run_stops_at_first_failure l s (e : exn) :
  snd (for_models lib l s) = Raise e ->
  exists pre model_id post s1,
    l = pre ++ model_id :: post /\
    for_models lib pre s = (s1, Ok tt) /\
    snd (export_model lib model_id s1) = Raise e /\
    for_models lib l s = export_model lib model_id s1.
Proof.
  revert s. induction l as [|model_id rest IH]; intros s; [discriminate|].
  rewrite for_models_cons.
  destruct (export_model lib model_id s) as [s1 [[]|e1]] eqn:Hrun.
  - intros H. destruct (IH s1 H) as (pre & i & post & s2 & -> & Hpre & He & Hfin).
    exists (model_id :: pre), i, post, s2. split; [reflexivity|].
    rewrite for_models_cons, Hrun. auto.
  - simpl. intros [= ->]. exists [], model_id, rest, s.
    rewrite Hrun. auto.
Qed.

Lemma export_model_raise_origin (model_id : string) s (e : exn) :
  snd (export_model lib model_id s) = Raise e ->
  (e = IndexError /\ contains "/" model_id = false) \/
  (exists w,
     snd (ORTModelForSeq2SeqLM_from_pretrained lib model_id true w)
       = Raise e \/
     snd (AutoTokenizer_from_pretrained lib model_id w) = Raise e \/
     (exists m dir, onnx_path model_id = Ok dir /\
        snd (model_save_pretrained lib m dir w) = Raise e) \/
     (exists t dir, onnx_path model_id = Ok dir /\
        snd (tokenizer_save_pretrained lib t dir w) = Raise e)).
Proof.
  unfold_calls. destruct (onnx_path model_id) as [dir|e0] eqn:Hdir; simpl.
  2: { intros [= ->]. left.
       apply onnx_path_raise, Hdir. }
  destruct (ORTModelForSeq2SeqLM_from_pretrained lib model_id true (world s))
    as [w1 [m|e1]] eqn:Hm; simpl.
  2: { intros [= ->]. right. exists (world s). left.
       rewrite Hm. reflexivity. }
  destruct (AutoTokenizer_from_pretrained lib model_id w1)
    as [w2 [tk|e1]] eqn:Htk; simpl.
  2: { intros [= ->]. right. exists w1. right. left.
       rewrite Htk. reflexivity. }
  destruct (model_save_pretrained lib m dir w2)
    as [w3 [[]|e1]] eqn:Hsm; simpl.
  2: { intros [= ->]. right. exists w2. right. right. left.
       exists m, dir. rewrite Hsm. auto. }
  destruct (tokenizer_save_pretrained lib tk dir w3)
    as [w4 [[]|e1]] eqn:Hst; simpl; [discriminate|].
  intros [= ->]. right. exists w3. right. right. right.
  exists tk, dir. rewrite Hst. auto.
Qed.
End Confinement.

Section Provenance.
Context {World Model Tokenizer : Type}.
Variable lib : Library World Model Tokenizer.
Implicit Types (s : state World Model Tokenizer) (l pre post : list string).

(** The exception a run ends with is the IndexError of an identifier of
    the list that has no '/', or an exception that one of the four library
    calls raised on an identifier of the list: the script raises nothing
    else of its own and replaces no exception by another. *)
Theorem raised_exception_origin l s (e : exn) :
  snd (for_models lib l s) = Raise e ->
  (e = IndexError /\
   exists model_id, In model_id l /\ contains "/" model_id = false) \/
  (exists model_id w,
     In model_id l /\
     (snd (ORTModelForSeq2SeqLM_from_pretrained lib model_id true w)
        = Raise e \/
      snd (AutoTokenizer_from_pretrained lib model_id w) = Raise e \/
      (exists m dir, onnx_path model_id = Ok dir /\
         snd (model_save_pretrained lib m dir w) = Raise e) \/
      (exists t dir, onnx_path model_id = Ok dir /\
         snd (tokenizer_save_pretrained lib t dir w) = Raise e))).
Proof.
  revert s. induction l as [|model_id rest IH]; intros s; [discriminate|].
  rewrite for_models_cons.
  destruct (export_model lib model_id s) as [s1 [[]|e1]] eqn:Hrun.
  - intros H. destruct (IH s1 H) as [[He (i & Hi & Hs)]|(i & w & Hi & Hw)].
    + left. split; [exact He|]. exists i. split; [right; exact Hi|exact Hs].
    + right. exists i, w. split; [right; exact Hi|exact Hw].
  - simpl. intros [= ->].
    assert (Hone : snd (export_model lib model_id s) = Raise e)
      by (rewrite Hrun; reflexivity).
    destruct (export_model_raise_origin lib _ _ _ Hone)
      as [[He Hs]|(w & Hw)].
    + left. split; [exact He|]. exists model_id.
      split; [left; reflexivity|exact Hs].
    + right. exists model_id, w. split; [left; reflexivity|exact Hw].
Qed.

(** When saving the converted model raises, the run ends with that
    exception right after the call: the tokenizer of the model is not
    saved, and no later identifier is started. *)
Theorem model_save_failure_skips_tokenizer pre (model_id : string) post
    s s1 (dir : PosixPath) (w2 w3 w4 : World) (m : Model) (t : Tokenizer)
    (e : exn) :
  for_models lib pre s = (s1, Ok tt) ->
  onnx_path model_id = Ok dir ->
  ORTModelForSeq2SeqLM_from_pretrained lib model_id true (world s1)
    = (w2, Ok m) ->
  AutoTokenizer_from_pretrained lib model_id w2 = (w3, Ok t) ->
  model_save_pretrained lib m dir w3 = (w4, Raise e) ->
  for_models lib (pre ++ model_id :: post) s
  = (mkState w4
       (log s1 ++ [CallLoadModel model_id true; CallLoadTokenizer model_id;
                   CallSaveModel m dir]),
     Raise e).
Proof.
  intros Hpre Hpath Hload Htok Hsave.
  rewrite for_models_app, Hpre, for_models_cons.
  unfold_calls. rewrite Hpath. simpl. rewrite Hload. simpl.
  rewrite Htok. simpl. rewrite Hsave. rewrite <- !app_assoc. reflexivity.
Qed.

(** When saving the tokenizer raises, the model of that identifier has
    already been saved: the run ends with the exception in the world the
    failing call returned, which comes after the successful model save, so
    the directory is left with the model and nothing undoes it; no later
    identifier is started. *)
Theorem tokenizer_save_failure_keeps_model pre (model_id : string) post
    s s1 (dir : PosixPath) (w2 w3 w4 w5 : World) (m : Model) (t : Tokenizer)
    (e : exn) :
  for_models lib pre s = (s1, Ok tt) ->
  onnx_path model_id = Ok dir ->
  ORTModelForSeq2SeqLM_from_pretrained lib model_id true (world s1)
    = (w2, Ok m) ->
  AutoTokenizer_from_pretrained lib model_id w2 = (w3, Ok t) ->
  model_save_pretrained lib m dir w3 = (w4, Ok tt) ->
  tokenizer_save_pretrained lib t dir w4 = (w5, Raise e) ->
  for_models lib (pre ++ model_id :: post) s
  = (mkState w5
       (log s1 ++ [CallLoadModel model_id true; CallLoadTokenizer model_id;
                   CallSaveModel m dir; CallSaveTokenizer t dir]),
     Raise e).
Proof.
  intros Hpre Hpath Hload Htok Hsm Hst.
  rewrite for_models_app, Hpre, for_models_cons.
  unfold_calls. rewrite Hpath. simpl. rewrite Hload. simpl.
  rewrite Htok. simpl. rewrite Hsm. simpl. rewrite Hst.
  rewrite <- !app_assoc. reflexivity.
Qed.
End Provenance.

(** ** The further properties on the small instance *)

(** A checkpoint the hub does not know, after the first entry: the run
    stops there. *)
Lemma first_failure_on_toy_library :
  exists pre model_id post s1,
    ["google/flan-t5-xl"; "acme/unknown"; "google/flan-t5-xxl"]
      = pre ++ model_id :: post /\
    for_models toy_library pre start = (s1, Ok tt) /\
    snd (export_model toy_library model_id s1)
      = Raise (LibraryError "onnx not found") /\
    for_models toy_library
      ["google/flan-t5-xl"; "acme/unknown"; "google/flan-t5-xxl"] start
    = export_model toy_library model_id s1.
Proof.
  exact (run_stops_at_first_failure toy_library
           ["google/flan-t5-xl"; "acme/unknown"; "google/flan-t5-xxl"]
           start (LibraryError "onnx not found") eq_refl).
Defined.

(** The exception of that run is the one the hub raised. *)
Lemma exception_origin_on_toy_library :
  (LibraryError "onnx not found" = IndexError /\
   exists model_id,
     In model_id ["google/flan-t5-xl"; "acme/unknown"] /\
     contains "/" model_id = false) \/
  (exists model_id w,
     In model_id ["google/flan-t5-xl"; "acme/unknown"] /\
     (snd (ORTModelForSeq2SeqLM_from_pretrained toy_library model_id true w)
        = Raise (LibraryError "onnx not found") \/
      snd (AutoTokenizer_from_pretrained toy_library model_id w)
        = Raise (LibraryError "onnx not found") \/
      (exists m dir, onnx_path model_id = Ok dir /\
         snd (model_save_pretrained toy_library m dir w)
           = Raise (LibraryError "onnx not found")) \/
      (exists t dir, onnx_path model_id = Ok dir /\
         snd (tokenizer_save_pretrained toy_library t dir w)
           = Raise (LibraryError "onnx not found")))).
Proof.
  exact (raised_exception_origin toy_library
           ["google/flan-t5-xl"; "acme/unknown"] start
           (LibraryError "onnx not found") eq_refl).
Defined.

(** On a read-only file system the run ends at the first model save. *)
Lemma model_save_failure_on_read_only :
  for_models read_only_library models start
  = (mkState []
       [CallLoadModel "google/flan-t5-xl" true;
        CallLoadTokenizer "google/flan-t5-xl";
        CallSaveModel "onnx:google/flan-t5-xl" (Path "onnx/flan-t5-xl")],
     Raise (LibraryError "read-only file system")).
Proof.
  exact (model_save_failure_skips_tokenizer read_only_library
           [] "google/flan-t5-xl" ["google/flan-t5-xxl"] start start
           (Path "onnx/flan-t5-xl") [] [] []
           "onnx:google/flan-t5-xl" "tokenizer:google/flan-t5-xl"
           (LibraryError "read-only file system")
           eq_refl eq_refl eq_refl eq_refl eq_refl).
Defined.

(** On a disk that is full after the model, the model files of the first
    entry stay in its directory, without the tokenizer. *)
Lemma tokenizer_save_failure_on_full_disk :
  for_models disk_full_library models start
  = (mkState [(Path "onnx/flan-t5-xl", ModelFiles "onnx:google/flan-t5-xl")]
       [CallLoadModel "google/flan-t5-xl" true;
        CallLoadTokenizer "google/flan-t5-xl";
        CallSaveModel "onnx:google/flan-t5-xl" (Path "onnx/flan-t5-xl");
        CallSaveTokenizer "tokenizer:google/flan-t5-xl"
          (Path "onnx/flan-t5-xl")],
     Raise (LibraryError "no space left on device")).
Proof.
  exact (tokenizer_save_failure_keeps_model disk_full_library
           [] "google/flan-t5-xl" ["google/flan-t5-xxl"] start start
           (Path "onnx/flan-t5-xl") [] []
           [(Path "onnx/flan-t5-xl", ModelFiles "onnx:google/flan-t5-xl")]
           [(Path "onnx/flan-t5-xl", ModelFiles "onnx:google/flan-t5-xl")]
           "onnx:google/flan-t5-xl" "tokenizer:google/flan-t5-xl"
           (LibraryError "no space left on device")
           eq_refl eq_refl eq_refl eq_refl eq_refl eq_refl).
Defined.

(** ** Splitting and printing *)

(** The split of line 20 loses nothing: an identifier with n slashes is
    cut into n + 1 pieces, none of which contains a '/', and the pieces
    joined by '/' are the identifier. *)
Theorem split_pieces (sep : ascii) (s : string) :
  join (String sep "") (split sep s) = s /\
  length (split sep s) = S (count sep s) /\
  Forall (fun piece => contains sep piece = false) (split sep s).
Proof.
  induction s as [|c rest (IHjoin & IHlen & IHall)]; simpl.
  - repeat split. constructor; [reflexivity|constructor].
  - destruct (Ascii.eqb c sep) eqn:Hc.
    + apply Ascii.eqb_eq in Hc. subst c. simpl. rewrite IHlen.
      split; [|split; [reflexivity|constructor; [reflexivity|exact IHall]]].
      destruct (split sep rest) as [|seg segs] eqn:Hsplit;
        [discriminate|].
      change (String sep (join (String sep "") (seg :: segs))
              = String sep rest).
      rewrite IHjoin. reflexivity.
    + destruct (split sep rest) as [|seg segs] eqn:Hsplit;
        [discriminate|].
      pose proof (Forall_inv IHall) as Hseg.
      pose proof (Forall_inv_tail IHall) as Hsegs. cbv beta in Hseg.
      split; [|split; [exact IHlen|]].
      * rewrite <- IHjoin. destruct segs; reflexivity.
      * constructor; [simpl; rewrite Hc, Hseg; reflexivity|exact Hsegs].
Qed.

(** A derived directory prints as onnx or as onnx/name, and parsing what
    it prints gives the directory back. *)
Theorem derived_dir_prints_and_parses (model_id : string)
    (dir : PosixPath) :
  onnx_path model_id = Ok dir ->
  Path (path_str dir) = dir /\
  (path_str dir = "onnx" \/
   exists name,
     model_name model_id = Ok name /\
     path_str dir = ("onnx/" ++ name)%string).
Proof.
  unfold onnx_path. destruct (model_name model_id) as [name|e] eqn:Hn;
    [|discriminate].
  intros H. assert (Hdir : dir = Path ("onnx/" ++ name)) by congruence.
  subst dir. clear H.
  destruct (model_name_ok _ _ Hn) as (_ & _ & Hs).
  pose proof (Path_onnx_name _ Hs) as HP.
  destruct (is_component name) eqn:Hc; rewrite HP.
  - change (path_str (mkPath "" ["onnx"; name]))
      with ("onnx/" ++ name)%string.
    rewrite HP. split; [reflexivity|]. right. exists name. auto.
  - split; [reflexivity|]. left. reflexivity.
Qed.

(** onnx/flan-t5-xxl prints and parses back. *)
Lemma flan_t5_xxl_dir_prints_and_parses :
  Path (path_str (Path "onnx/flan-t5-xxl")) = Path "onnx/flan-t5-xxl" /\
  (path_str (Path "onnx/flan-t5-xxl") = "onnx" \/
   exists name,
     model_name "google/flan-t5-xxl" = Ok name /\
     path_str (Path "onnx/flan-t5-xxl") = ("onnx/" ++ name)%string).
Proof.
  exact (derived_dir_prints_and_parses "google/flan-t5-xxl"
           (Path "onnx/flan-t5-xxl") eq_refl).
Defined.

(** ** Completed runs on the small instance *)

Lemma toy_calls_succeed : calls_succeed toy_library models.
Proof.
  repeat split.
  - intros model_id w H. simpl in H.
    repeat (destruct H as [<-|H]; [eexists; eexists; reflexivity|]).
    destruct H.
  - intros model_id w H. simpl in H.
    repeat (destruct H as [<-|H]; [eexists; eexists; reflexivity|]).
    destruct H.
  - intros. eexists. reflexivity.
  - intros. eexists. reflexivity.
Qed.

Lemma models_have_slash (model_id : string) :
  In model_id models -> contains "/" model_id = true.
Proof.
  intros H. simpl in H.
  repeat (destruct H as [<-|H]; [reflexivity|]). destruct H.
Qed.

(** On the small instance the loop completes and makes the four calls of
    flan-t5-xl, then the four calls of flan-t5-xxl. *)
Lemma calls_in_list_order_on_toy_library :
  snd (for_models toy_library models start) = Ok tt /\
  map shape (log (fst (for_models toy_library models start)))
  = [ OpLoadModel "google/flan-t5-xl" true;
      OpLoadTokenizer "google/flan-t5-xl";
      OpSaveModel (Path "onnx/flan-t5-xl");
      OpSaveTokenizer (Path "onnx/flan-t5-xl");
      OpLoadModel "google/flan-t5-xxl" true;
      OpLoadTokenizer "google/flan-t5-xxl";
      OpSaveModel (Path "onnx/flan-t5-xxl");
      OpSaveTokenizer (Path "onnx/flan-t5-xxl") ].
Proof.
  destruct (calls_in_list_order toy_library models start)
    as ((new & Hlog & _ & _ & Hsucc) & _).
  destruct (Hsucc models_have_slash toy_calls_succeed) as (Hdone & Hnew & _).
  split; [exact Hdone|]. rewrite Hlog. exact Hnew.
Defined.


(** On the small instance the log of the loop is two complete blocks, one
    for each entry of the list. *)
Lemma complete_blocks_on_toy_library :
  exists done,
    log (fst (for_models toy_library models start)) = concat done /\
    Forall2 complete_block models done.
Proof.
  destruct (same_id_and_dir_per_iteration toy_library models start)
    as (_ & done & last & Hlog & Hall & Hdone & _).
  destruct (Hdone eq_refl) as [Hlen Hlast].
  exists done. subst last. rewrite app_nil_r in Hlog.
  split; [exact Hlog|].
  rewrite Hlen, firstn_all in Hall. exact Hall.
Defined.

(** ** A hub that moves on between two runs *)

Lemma drifting_saves_overwrite :
  saves_overwrite drifting_library (@Some nat) (@Some nat)
    revision_model_files revision_tokenizer_files.
Proof.
  split; intros h dir [v files] w' H p; inversion H;
    unfold revision_model_files, revision_tokenizer_files; simpl;
    (split; [destruct (path_eqb dir p)|]; reflexivity).
Qed.

Lemma deterministic_overwriting_saves {World Model Tokenizer MF TF : Type}
    (lib : Library World Model Tokenizer)
    (stored_model : Model -> MF) (stored_tokenizer : Tokenizer -> TF)
    (model_files : World -> PosixPath -> MF)
    (tokenizer_files : World -> PosixPath -> TF) :
  deterministic_overwriting lib stored_model stored_tokenizer
    model_files tokenizer_files ->
  saves_overwrite lib stored_model stored_tokenizer
    model_files tokenizer_files.
Proof.
  intros H. split.
  - exact (save_model_overwrites _ _ _ _ _ H).
  - exact (save_tokenizer_overwrites _ _ _ _ _ H).
Qed.

(** C8 as stated fails: with saves that are deterministic and overwriting,
    and a hub that serves a newer revision at every load, two runs of the
    loop over the list, the second started where the first ended, both
    complete and make the same calls, and leave different model files in
    onnx/flan-t5-xl: revision 0 after the first run, revision 2 after the
    second. *)
Lemma drifting_hub_changes_contents :
  let first := for_models drifting_library models hub_at_0 in
  let second := for_models drifting_library models (fst first) in
  saves_overwrite drifting_library (@Some nat) (@Some nat)
    revision_model_files revision_tokenizer_files /\
  snd first = Ok tt /\
  snd second = Ok tt /\
  log (fst second) = log (fst first) ++ skipn 8 (log (fst second)) /\
  map shape (skipn 8 (log (fst second))) = map shape (log (fst first)) /\
  revision_model_files (world (fst first)) (Path "onnx/flan-t5-xl")
    = Some 0 /\
  revision_model_files (world (fst second)) (Path "onnx/flan-t5-xl")
    = Some 2 /\
  revision_model_files (world (fst first)) (Path "onnx/flan-t5-xl")
    <> revision_model_files (world (fst second)) (Path "onnx/flan-t5-xl").
Proof.
  split; [exact drifting_saves_overwrite|].
  repeat split; discriminate.
Qed.

(** On the small instance the loop makes eight calls, and loads and saves
    flan-t5-xl once. *)
Lemma four_calls_on_toy_library :
  exists new,
    log (fst (for_models toy_library models start)) = new /\
    length new = 8 /\
    model_loads "google/flan-t5-xl" (map shape new) = 1 /\
    tokenizer_loads "google/flan-t5-xl" (map shape new) = 1 /\
    model_saves (Path "onnx/flan-t5-xl") (map shape new) = 1 /\
    tokenizer_saves (Path "onnx/flan-t5-xl") (map shape new) = 1.
Proof.
  destruct (four_calls_per_model toy_library models start)
    as (new & Hlog & _ & _ & Hdone).
  destruct (Hdone eq_refl) as [Hlen Hcount].
  exists new. split; [exact Hlog|]. split; [exact Hlen|].
  exact (Hcount "google/flan-t5-xl" (Path "onnx/flan-t5-xl")).
Defined.
